(** * ROI projection engine of [app.py]

    A shallow embedding of the "Core Logic" section of [app.py]
    (lines 84-139): the derived constants, the month loop with its
    savings policy, cost escalation, accumulation and the rows appended
    to [data].

    Numbers.  Python [int] values ([month], [ramp_up],
    [cleaning_frequency], [op_days], [years]) are [Z].  Python [float]
    values are read as exact rationals [Q]: binary64 rounding error,
    overflow and NaN are outside this model.  [%] on integers is
    [Z.modulo] (floor convention, as in Python) and raises
    [ZeroDivisionError] on a zero divisor, as does [/]. *)

From Stdlib Require Import ZArith QArith Qround Qpower List String Bool.
From Stdlib Require Import Lia Lqa.
From Stdlib Require Import DecimalString.
Import ListNotations.

Open Scope Q_scope.

(** ** Python primitives used by the script *)

Module Py.

(** [x > y] and [x < y] on floats. *)
Definition ltb (x y : Q) : bool :=
  (Qnum x * QDen y <? Qnum y * QDen x)%Z.

(** [max(0, x)]: the first argument is kept unless a later one is
    strictly greater. *)
Definition max0 (x : Q) : Q := if ltb 0 x then x else 0.

(** [round(x)]: nearest integer, ties to the even neighbour. *)
Definition round (x : Q) : Z :=
  let f := Qfloor x in
  match Qcompare (x - inject_Z f) (1 # 2) with
  | Lt => f
  | Gt => (f + 1)%Z
  | Eq => if Z.even f then f else (f + 1)%Z
  end.

(** [round(x, 2)]. *)
Definition round2 (x : Q) : Q := inject_Z (round (x * 100)) / 100.

Definition digits (n : Z) : string :=
  NilZero.string_of_uint (N.to_uint (Z.to_N n)).

(** [f"{x:.1f}"]: one decimal, ties to even, sign of [x] kept. *)
Definition format_1f (x : Q) : string :=
  let n := Z.abs (round (x * 10)) in
  ((if ltb x 0 then "-" else "")
     ++ digits (n / 10) ++ "." ++ digits (n mod 10))%string.

(** [range(a, b)]. *)
Definition range (a b : Z) : list Z :=
  map (fun i => (a + Z.of_nat i)%Z) (seq 0 (Z.to_nat (b - a))).

(** [sum(xs)], which starts from the integer 0. *)
Definition sum (xs : list Q) : Q := fold_left Qplus xs 0.

End Py.

(** ** Input section (lines 43-82)

    The values returned by the widgets.  The four percentages that the
    script divides by 100 on the spot are kept as entered
    ([..._input]); the script's names are the derived fractions
    below. *)

Record Inputs : Type := mkInputs {
  years : Z;
  fleet_size : Z;
  fuel_price : Q;
  daily_fuel : Q;
  op_days : Z;
  saving_hull : Q;
  saving_voyage : Q;
  saving_emission : Q;
  saving_scorecard : Q;
  saving_propulsion : Q;
  cost_hull : Q;
  cost_voyage : Q;
  cost_emission : Q;
  cost_scorecard : Q;
  cost_propulsion : Q;
  ramp_up : Z;
  cleaning_cost : Q;
  cleaning_frequency : Z;
  one_time_cost : Q;
  crew_cost : Q;
  monthly_deterioration_input : Q;
  yearly_sub_increase_input : Q;
  ramp_up_saving_pct_input : Q;
  post_cleaning_saving_pct_input : Q
}.

Definition months (p : Inputs) : Z := (years p * 12)%Z.

Definition initial_sub_cost (p : Inputs) : Q :=
  Py.sum [cost_hull p; cost_voyage p; cost_emission p;
          cost_scorecard p; cost_propulsion p].

Definition monthly_deterioration (p : Inputs) : Q :=
  monthly_deterioration_input p / 100.
Definition yearly_sub_increase (p : Inputs) : Q :=
  yearly_sub_increase_input p / 100.
Definition ramp_up_saving_pct (p : Inputs) : Q :=
  ramp_up_saving_pct_input p / 100.
Definition post_cleaning_saving_pct (p : Inputs) : Q :=
  post_cleaning_saving_pct_input p / 100.

(** ** Core logic: constants (lines 85-87) *)

Definition CO2_EMISSION_FACTOR : Q := 3114 # 1000.

Definition monthly_fuel_cost_base (p : Inputs) : Q :=
  fuel_price p * daily_fuel p * inject_Z (op_days p) / 12.

Definition total_saving_pct (p : Inputs) : Q :=
  saving_hull p + saving_voyage p + saving_emission p
  + saving_scorecard p + saving_propulsion p.

(** ** The store *)

(** One dictionary appended to [data] (lines 127-139). *)
Record Row : Type := mkRow {
  Month : Z;
  Fuel_Cost : Z;
  Subscription_Cost : Z;
  Cumulative_Subscription_Cost : Z;
  Hull_Cleaning_Cost : Z;
  Savings_in_Fuel : Q;
  Fuel_Cost_Savings : Z;
  Cumulative_Savings : Z;
  Cumulative_Total_Cost : Z;
  Profit : Z;
  Cumulative_ROI : string
}.

(** The module-level variables the loop reads and writes.  The first
    nine are bound before the loop (lines 89-97).  [month] and the
    seven that follow are bound by the loop only: they are [None]
    until their first assignment. *)
Record State : Type := mkState {
  data : list Row;
  cumulative_sub_cost : Q;
  cumulative_savings : Q;
  cumulative_total_cost : Q;
  total_fuel_mt : Q;
  fuel_cost_current : Q;
  sub_cost : Q;
  saving_pct : Q;
  last_saving_pct : Q;
  month : option Z;
  fuel_saving_dollars : option Q;
  monthly_fuel_mt : option Q;
  hull_cleaning : option Q;
  other_cost : option Q;
  total_monthly_cost : option Q;
  profit : option Q;
  roi : option Q
}.

Definition initial_state (p : Inputs) : State :=
  {| data := [];
     cumulative_sub_cost := 0;
     cumulative_savings := 0;
     cumulative_total_cost := 0;
     total_fuel_mt := 0;
     fuel_cost_current := monthly_fuel_cost_base p;
     sub_cost := initial_sub_cost p;
     saving_pct := 0;
     last_saving_pct := 0;
     month := None;
     fuel_saving_dollars := None;
     monthly_fuel_mt := None;
     hull_cleaning := None;
     other_cost := None;
     total_monthly_cost := None;
     profit := None;
     roi := None |}.

(** Assignments, one per variable. *)
Definition set_data v (s : State) : State :=
  mkState v (cumulative_sub_cost s) (cumulative_savings s)
    (cumulative_total_cost s) (total_fuel_mt s) (fuel_cost_current s)
    (sub_cost s) (saving_pct s) (last_saving_pct s) (month s)
    (fuel_saving_dollars s) (monthly_fuel_mt s) (hull_cleaning s)
    (other_cost s) (total_monthly_cost s) (profit s) (roi s).
Definition set_cumulative_sub_cost v (s : State) : State :=
  mkState (data s) v (cumulative_savings s) (cumulative_total_cost s)
    (total_fuel_mt s) (fuel_cost_current s) (sub_cost s) (saving_pct s)
    (last_saving_pct s) (month s) (fuel_saving_dollars s)
    (monthly_fuel_mt s) (hull_cleaning s) (other_cost s)
    (total_monthly_cost s) (profit s) (roi s).
Definition set_cumulative_savings v (s : State) : State :=
  mkState (data s) (cumulative_sub_cost s) v (cumulative_total_cost s)
    (total_fuel_mt s) (fuel_cost_current s) (sub_cost s) (saving_pct s)
    (last_saving_pct s) (month s) (fuel_saving_dollars s)
    (monthly_fuel_mt s) (hull_cleaning s) (other_cost s)
    (total_monthly_cost s) (profit s) (roi s).
Definition set_cumulative_total_cost v (s : State) : State :=
  mkState (data s) (cumulative_sub_cost s) (cumulative_savings s) v
    (total_fuel_mt s) (fuel_cost_current s) (sub_cost s) (saving_pct s)
    (last_saving_pct s) (month s) (fuel_saving_dollars s)
    (monthly_fuel_mt s) (hull_cleaning s) (other_cost s)
    (total_monthly_cost s) (profit s) (roi s).
Definition set_total_fuel_mt v (s : State) : State :=
  mkState (data s) (cumulative_sub_cost s) (cumulative_savings s)
    (cumulative_total_cost s) v (fuel_cost_current s) (sub_cost s)
    (saving_pct s) (last_saving_pct s) (month s) (fuel_saving_dollars s)
    (monthly_fuel_mt s) (hull_cleaning s) (other_cost s)
    (total_monthly_cost s) (profit s) (roi s).
Definition set_fuel_cost_current v (s : State) : State :=
  mkState (data s) (cumulative_sub_cost s) (cumulative_savings s)
    (cumulative_total_cost s) (total_fuel_mt s) v (sub_cost s)
    (saving_pct s) (last_saving_pct s) (month s) (fuel_saving_dollars s)
    (monthly_fuel_mt s) (hull_cleaning s) (other_cost s)
    (total_monthly_cost s) (profit s) (roi s).
Definition set_sub_cost v (s : State) : State :=
  mkState (data s) (cumulative_sub_cost s) (cumulative_savings s)
    (cumulative_total_cost s) (total_fuel_mt s) (fuel_cost_current s) v
    (saving_pct s) (last_saving_pct s) (month s) (fuel_saving_dollars s)
    (monthly_fuel_mt s) (hull_cleaning s) (other_cost s)
    (total_monthly_cost s) (profit s) (roi s).
Definition set_saving_pct v (s : State) : State :=
  mkState (data s) (cumulative_sub_cost s) (cumulative_savings s)
    (cumulative_total_cost s) (total_fuel_mt s) (fuel_cost_current s)
    (sub_cost s) v (last_saving_pct s) (month s) (fuel_saving_dollars s)
    (monthly_fuel_mt s) (hull_cleaning s) (other_cost s)
    (total_monthly_cost s) (profit s) (roi s).
Definition set_last_saving_pct v (s : State) : State :=
  mkState (data s) (cumulative_sub_cost s) (cumulative_savings s)
    (cumulative_total_cost s) (total_fuel_mt s) (fuel_cost_current s)
    (sub_cost s) (saving_pct s) v (month s) (fuel_saving_dollars s)
    (monthly_fuel_mt s) (hull_cleaning s) (other_cost s)
    (total_monthly_cost s) (profit s) (roi s).
Definition set_month v (s : State) : State :=
  mkState (data s) (cumulative_sub_cost s) (cumulative_savings s)
    (cumulative_total_cost s) (total_fuel_mt s) (fuel_cost_current s)
    (sub_cost s) (saving_pct s) (last_saving_pct s) (Some v)
    (fuel_saving_dollars s) (monthly_fuel_mt s) (hull_cleaning s)
    (other_cost s) (total_monthly_cost s) (profit s) (roi s).
Definition set_fuel_saving_dollars v (s : State) : State :=
  mkState (data s) (cumulative_sub_cost s) (cumulative_savings s)
    (cumulative_total_cost s) (total_fuel_mt s) (fuel_cost_current s)
    (sub_cost s) (saving_pct s) (last_saving_pct s) (month s) (Some v)
    (monthly_fuel_mt s) (hull_cleaning s) (other_cost s)
    (total_monthly_cost s) (profit s) (roi s).
Definition set_monthly_fuel_mt v (s : State) : State :=
  mkState (data s) (cumulative_sub_cost s) (cumulative_savings s)
    (cumulative_total_cost s) (total_fuel_mt s) (fuel_cost_current s)
    (sub_cost s) (saving_pct s) (last_saving_pct s) (month s)
    (fuel_saving_dollars s) (Some v) (hull_cleaning s) (other_cost s)
    (total_monthly_cost s) (profit s) (roi s).
Definition set_hull_cleaning v (s : State) : State :=
  mkState (data s) (cumulative_sub_cost s) (cumulative_savings s)
    (cumulative_total_cost s) (total_fuel_mt s) (fuel_cost_current s)
    (sub_cost s) (saving_pct s) (last_saving_pct s) (month s)
    (fuel_saving_dollars s) (monthly_fuel_mt s) (Some v) (other_cost s)
    (total_monthly_cost s) (profit s) (roi s).
Definition set_other_cost v (s : State) : State :=
  mkState (data s) (cumulative_sub_cost s) (cumulative_savings s)
    (cumulative_total_cost s) (total_fuel_mt s) (fuel_cost_current s)
    (sub_cost s) (saving_pct s) (last_saving_pct s) (month s)
    (fuel_saving_dollars s) (monthly_fuel_mt s) (hull_cleaning s)
    (Some v) (total_monthly_cost s) (profit s) (roi s).
Definition set_total_monthly_cost v (s : State) : State :=
  mkState (data s) (cumulative_sub_cost s) (cumulative_savings s)
    (cumulative_total_cost s) (total_fuel_mt s) (fuel_cost_current s)
    (sub_cost s) (saving_pct s) (last_saving_pct s) (month s)
    (fuel_saving_dollars s) (monthly_fuel_mt s) (hull_cleaning s)
    (other_cost s) (Some v) (profit s) (roi s).
Definition set_profit v (s : State) : State :=
  mkState (data s) (cumulative_sub_cost s) (cumulative_savings s)
    (cumulative_total_cost s) (total_fuel_mt s) (fuel_cost_current s)
    (sub_cost s) (saving_pct s) (last_saving_pct s) (month s)
    (fuel_saving_dollars s) (monthly_fuel_mt s) (hull_cleaning s)
    (other_cost s) (total_monthly_cost s) (Some v) (roi s).
Definition set_roi v (s : State) : State :=
  mkState (data s) (cumulative_sub_cost s) (cumulative_savings s)
    (cumulative_total_cost s) (total_fuel_mt s) (fuel_cost_current s)
    (sub_cost s) (saving_pct s) (last_saving_pct s) (month s)
    (fuel_saving_dollars s) (monthly_fuel_mt s) (hull_cleaning s)
    (other_cost s) (total_monthly_cost s) (profit s) (Some v).

(** ** Statements: a store that may raise

    A statement takes the store and either finishes with a value and
    the new store, or raises with the store as it was at that
    point. *)

Inductive exn : Type := ZeroDivisionError | NameError.

Inductive result (A : Type) : Type :=
| Ok (a : A) (s : State)
| Raise (e : exn) (s : State).
Arguments Ok {A} a s.
Arguments Raise {A} e s.

Definition M (A : Type) : Type := State -> result A.

Definition ret {A} (a : A) : M A := fun s => Ok a s.

Definition bind {A B} (c : M A) (k : A -> M B) : M B :=
  fun s => match c s with
           | Ok a s' => k a s'
           | Raise e s' => Raise e s'
           end.

Definition raise {A} (e : exn) : M A := fun s => Raise e s.
Definition read {A} (f : State -> A) : M A := fun s => Ok (f s) s.
Definition assign (f : State -> State) : M unit := fun s => Ok tt (f s).

(** Reading a variable that only the loop binds. *)
Definition fetch {A} (f : State -> option A) : M A :=
  fun s => match f s with
           | Some v => Ok v s
           | None => Raise NameError s
           end.

Declare Scope stmt_scope.
Delimit Scope stmt_scope with stmt.
Notation "x <- c ;; k" := (bind c (fun x => k))
  (at level 61, c at next level, right associativity) : stmt_scope.
Notation "c ;; k" := (bind c (fun _ => k))
  (at level 61, right associativity) : stmt_scope.
Open Scope stmt_scope.

(** [a % b] on integers. *)
Definition py_mod (a b : Z) : M Z :=
  if (b =? 0)%Z then raise ZeroDivisionError else ret (a mod b)%Z.

(** [x / y] on floats. *)
Definition py_div (x y : Q) : M Q :=
  if Qeq_bool y 0 then raise ZeroDivisionError else ret (x / y).

(** [for m in ms: body], with [month] as the loop variable. *)
Fixpoint for_month (ms : list Z) (body : Z -> M unit) : M unit :=
  match ms with
  | [] => ret tt
  | m :: ms' => assign (set_month m) ;; body m ;; for_month ms' body
  end.

(** ** The month loop (lines 99-139) *)

Section Loop.

Variable p : Inputs.

(** Lines 100-102. *)
Definition escalation (m : Z) : M unit :=
  if ((m mod 12 =? 1) && (m >? 1))%Z then
    fc <- read fuel_cost_current ;;
    assign (set_fuel_cost_current (fc * (1 + yearly_sub_increase p))) ;;
    sc <- read sub_cost ;;
    assign (set_sub_cost (sc * (1 + yearly_sub_increase p)))
  else ret tt.

(** The test [month % cleaning_frequency == 0 and month >= ramp_up],
    written out on lines 108 and 120: the remainder is taken first,
    so a zero frequency raises whatever [ramp_up] is. *)
Definition cleaning_month (m : Z) : M bool :=
  r <- py_mod m (cleaning_frequency p) ;;
  ret ((r =? 0) && (m >=? ramp_up p))%Z.

(** Lines 104-113. *)
Definition savings_policy (m : Z) : M unit :=
  if (m <? ramp_up p)%Z then
    assign (set_saving_pct 0)
  else if ((m >? ramp_up p) && (m <? cleaning_frequency p))%Z then
    assign (set_saving_pct (total_saving_pct p * ramp_up_saving_pct p))
  else
    c <- cleaning_month m ;;
    if c : bool then
      assign (set_saving_pct
                (total_saving_pct p * post_cleaning_saving_pct p)) ;;
      sp <- read saving_pct ;;
      assign (set_last_saving_pct sp)
    else
      last <- read last_saving_pct ;;
      assign (set_last_saving_pct
                (Py.max0 (last - monthly_deterioration p * 100))) ;;
      last' <- read last_saving_pct ;;
      assign (set_saving_pct last').

(** Lines 115-125. *)
Definition ledger (m : Z) : M unit :=
  fc <- read fuel_cost_current ;;
  sp <- read saving_pct ;;
  let fsd := fc * (sp / 100) in
  assign (set_fuel_saving_dollars fsd) ;;
  mf <- py_div fc (fuel_price p) ;;
  assign (set_monthly_fuel_mt mf) ;;
  tf <- read total_fuel_mt ;;
  assign (set_total_fuel_mt (tf + mf)) ;;
  cs <- read cumulative_savings ;;
  assign (set_cumulative_savings (cs + fsd)) ;;
  csc <- read cumulative_sub_cost ;;
  sc <- read sub_cost ;;
  assign (set_cumulative_sub_cost (csc + sc)) ;;
  c <- cleaning_month m ;;
  let hc := if c : bool then cleaning_cost p else 0 in
  assign (set_hull_cleaning hc) ;;
  let oc := if (m =? 1)%Z then one_time_cost p + crew_cost p else 0 in
  assign (set_other_cost oc) ;;
  let tmc := sc + hc + oc in
  assign (set_total_monthly_cost tmc) ;;
  ctc <- read cumulative_total_cost ;;
  assign (set_cumulative_total_cost (ctc + tmc)) ;;
  cs' <- read cumulative_savings ;;
  ctc' <- read cumulative_total_cost ;;
  let pr := cs' - ctc' in
  assign (set_profit pr) ;;
  assign (set_roi (if Py.ltb 0 ctc' then pr / ctc' else - (1))).

(** Lines 127-139. *)
Definition append_row : M unit :=
  m <- fetch month ;;
  fc <- read fuel_cost_current ;;
  sc <- read sub_cost ;;
  csc <- read cumulative_sub_cost ;;
  hc <- fetch hull_cleaning ;;
  sp <- read saving_pct ;;
  fsd <- fetch fuel_saving_dollars ;;
  cs <- read cumulative_savings ;;
  ctc <- read cumulative_total_cost ;;
  pr <- fetch profit ;;
  r <- fetch roi ;;
  d <- read data ;;
  assign (set_data
    (d ++ [ {| Month := m;
               Fuel_Cost := Py.round fc;
               Subscription_Cost := Py.round sc;
               Cumulative_Subscription_Cost := Py.round csc;
               Hull_Cleaning_Cost := Py.round hc;
               Savings_in_Fuel := Py.round2 sp;
               Fuel_Cost_Savings := Py.round fsd;
               Cumulative_Savings := Py.round cs;
               Cumulative_Total_Cost := Py.round ctc;
               Profit := Py.round pr;
               Cumulative_ROI :=
                 (Py.format_1f (r * 100) ++ "%")%string |} ])).

Definition loop_body (m : Z) : M unit :=
  escalation m ;;
  savings_policy m ;;
  ledger m ;;
  append_row.

(** The loop over [range(1, n + 1)], started from the store of
    lines 89-97. *)
Definition after_months (n : Z) : result unit :=
  for_month (Py.range 1 (n + 1)) loop_body (initial_state p).

(** Lines 89-139: the store after the loop, or the exception that
    stopped it. *)
Definition run : result unit := after_months (months p).

(** One pass of the loop: [month] is bound, then the body runs. *)
Definition iteration (m : Z) : M unit :=
  assign (set_month m) ;; loop_body m.

(** Month [m] of the run: the loop reached it with store [s] and
    the pass left store [s']. *)
Definition month_step (m : Z) (s s' : State) : Prop :=
  (1 <= m <= months p)%Z /\
  after_months (m - 1) = Ok tt s /\
  iteration m s = Ok tt s'.

End Loop.

(** ** Facts about the primitives *)

(** [lra] does not look through a division by a literal: turn
    [x / 100] into [x * (1 # 100)] first. *)
Ltac inv_literals :=
  unfold Qdiv in *;
  repeat match goal with
    | |- context [Qinv (Qmake ?a ?b)] =>
        let v := eval cbv in (Qinv (Qmake a b)) in
        change (Qinv (Qmake a b)) with v
    | H : context [Qinv (Qmake ?a ?b)] |- _ =>
        let v := eval cbv in (Qinv (Qmake a b)) in
        change (Qinv (Qmake a b)) with v in H
    end.
Ltac qlra := inv_literals; lra.
Ltac qnra := inv_literals; nra.

Lemma ltb_lt (x y : Q) : Py.ltb x y = true <-> x < y.
Proof. unfold Py.ltb, Qlt. apply Z.ltb_lt. Qed.

Lemma ltb_ge (x y : Q) : Py.ltb x y = false <-> y <= x.
Proof. unfold Py.ltb, Qle. apply Z.ltb_ge. Qed.

Lemma max0_nonneg (x : Q) : 0 <= Py.max0 x.
Proof.
  unfold Py.max0. destruct (Py.ltb 0 x) eqn:E.
  - apply ltb_lt in E. lra.
  - lra.
Qed.

Lemma max0_le (x y : Q) : x <= y -> 0 <= y -> Py.max0 x <= y.
Proof.
  intros Hxy Hy. unfold Py.max0. destruct (Py.ltb 0 x); assumption.
Qed.

Lemma floor_bounds (x : Q) :
  inject_Z (Qfloor x) <= x /\ x < inject_Z (Qfloor x) + 1.
Proof.
  split; [apply Qfloor_le|].
  pose proof (Qlt_floor x) as H.
  rewrite inject_Z_plus in H. exact H.
Qed.

Lemma round_cases (x : Q) :
  let f := Qfloor x in
  (Py.round x = f /\ x - inject_Z f <= 1 # 2
   /\ (x - inject_Z f == 1 # 2 -> Z.even f = true))
  \/ (Py.round x = (f + 1)%Z /\ 1 # 2 <= x - inject_Z f
      /\ (x - inject_Z f == 1 # 2 -> Z.even f = false)).
Proof.
  intro f. unfold Py.round. fold f.
  destruct (Qcompare_spec (x - inject_Z f) (1 # 2)) as [E|L|G].
  - destruct (Z.even f) eqn:Ev; [left|right]; (split; [reflexivity|]);
      split; auto; rewrite E; lra.
  - left. split; [reflexivity|]. split; [lra|]. intros E. lra.
  - right. split; [reflexivity|]. split; [lra|]. intros E. lra.
Qed.

Lemma round_monotone (x y : Q) : x <= y -> (Py.round x <= Py.round y)%Z.
Proof.
  intros Hxy.
  pose proof (Qfloor_resp_le x y Hxy) as Hfg.
  destruct (round_cases x) as [(Rx & Hx & Ex)|(Rx & Hx & Ex)];
    destruct (round_cases y) as [(Ry & Hy & Ey)|(Ry & Hy & Ey)];
    rewrite Rx, Ry; try lia.
  destruct (Z.eq_dec (Qfloor x) (Qfloor y)) as [E|N]; [|lia].
  exfalso. rewrite <- E in Hy, Ey.
  assert (Hh : x - inject_Z (Qfloor x) == 1 # 2) by lra.
  assert (Hk : y - inject_Z (Qfloor x) == 1 # 2) by lra.
  rewrite (Ex Hh) in Ey. specialize (Ey Hk). discriminate.
Qed.

Lemma round_inject_Z (z : Z) : Py.round (inject_Z z) = z.
Proof.
  unfold Py.round. rewrite Qfloor_Z.
  destruct (Qcompare_spec (inject_Z z - inject_Z z) (1 # 2)) as [E|L|G];
    try reflexivity; exfalso; lra.
Qed.

Lemma round_proper (x y : Q) : x == y -> Py.round x = Py.round y.
Proof.
  intros E. apply Z.le_antisymm; apply round_monotone; lra.
Qed.

Lemma round_nonneg (x : Q) : 0 <= x -> (0 <= Py.round x)%Z.
Proof.
  intros H. change 0%Z with (Py.round (inject_Z 0)) at 1.
  - apply round_monotone. exact H.
Qed.

Lemma round2_nonneg (x : Q) : 0 <= x -> 0 <= Py.round2 x.
Proof.
  intros H. unfold Py.round2.
  assert (Hr : (0 <= Py.round (x * 100))%Z) by (apply round_nonneg; lra).
  rewrite Zle_Qle in Hr. change (inject_Z 0) with 0 in Hr. qlra.
Qed.

(** A value on the two-decimal grid bounds the rounded value of all
    that lies below it. *)
Lemma round2_le_grid (x t : Q) (k : Z) :
  t == inject_Z k / 100 -> x <= t -> Py.round2 x <= t.
Proof.
  intros Ht Hx. unfold Py.round2.
  assert (Hr : (Py.round (x * 100) <= k)%Z).
  { rewrite <- (round_inject_Z k). apply round_monotone.
    rewrite Ht in Hx. qlra. }
  rewrite Zle_Qle in Hr. rewrite Ht. qlra.
Qed.

(** ** The loop as a fold *)

Lemma range_nil (a b : Z) : (b <= a)%Z -> Py.range a b = [].
Proof.
  intros H. unfold Py.range.
  replace (Z.to_nat (b - a)) with 0%nat by lia. reflexivity.
Qed.

Lemma range_snoc (a b : Z) :
  (a <= b)%Z -> Py.range a (b + 1) = Py.range a b ++ [b].
Proof.
  intros H. unfold Py.range.
  replace (Z.to_nat (b + 1 - a)) with (S (Z.to_nat (b - a))) by lia.
  rewrite seq_S, map_app. cbn [map Nat.add]. do 2 f_equal. lia.
Qed.

Lemma range_length (a b : Z) :
  List.length (Py.range a b) = Z.to_nat (b - a).
Proof. unfold Py.range. now rewrite length_map, length_seq. Qed.

Lemma for_month_app (xs ys : list Z) (body : Z -> M unit) (s : State) :
  for_month (xs ++ ys) body s =
  match for_month xs body s with
  | Ok _ s' => for_month ys body s'
  | Raise e s' => Raise e s'
  end.
Proof.
  revert s. induction xs as [|x xs IH]; intros s; [reflexivity|].
  cbn [app for_month]. unfold bind, assign.
  destruct (body x (set_month x s)) as [[] s1|e s1]; [apply IH|reflexivity].
Qed.

Section LoopFacts.

Variable p : Inputs.

Lemma after_months_0 : after_months p 0 = Ok tt (initial_state p).
Proof. reflexivity. Qed.

Lemma after_months_succ (m : Z) :
  (1 <= m)%Z ->
  after_months p m =
  match after_months p (m - 1) with
  | Ok _ s => iteration p m s
  | Raise e s => Raise e s
  end.
Proof.
  intros Hm. unfold after_months.
  replace (m - 1 + 1)%Z with m by lia.
  rewrite range_snoc by lia. rewrite for_month_app.
  destruct (for_month (Py.range 1 m) (loop_body p) (initial_state p))
    as [[] s|e s]; [|reflexivity].
  cbn [for_month]. unfold iteration, bind, assign, ret.
  destruct (loop_body p m (set_month m s)) as [[] s'|e s']; reflexivity.
Qed.

(** A run that finishes month [n] finished every earlier month. *)
Lemma after_months_prefix (n m : Z) (s : State) :
  (0 <= m <= n)%Z -> after_months p n = Ok tt s ->
  exists s0, after_months p m = Ok tt s0.
Proof.
  intros [Hm Hn]. revert s.
  pattern n. apply Zlt_lower_bound_ind with (z := m); [|exact Hn].
  clear n Hn. intros n IH Hn s Hs.
  destruct (Z.eq_dec n m) as [->|Hne]; [eauto|].
  rewrite after_months_succ in Hs by lia.
  destruct (after_months p (n - 1)) as [[] s1|e s1] eqn:E;
    [|discriminate].
  apply (IH (n - 1)%Z) with (s := s1); [lia|exact E].
Qed.

(** Induction over the months of a run. *)
Lemma months_ind (I : Z -> State -> Prop) :
  I 0%Z (initial_state p) ->
  (forall m s s',
      (1 <= m)%Z -> after_months p (m - 1) = Ok tt s -> I (m - 1)%Z s ->
      iteration p m s = Ok tt s' -> I m s') ->
  forall n s, (0 <= n)%Z -> after_months p n = Ok tt s -> I n s.
Proof.
  intros H0 Hstep n s Hn. revert s.
  pattern n. apply natlike_ind; [| |exact Hn]; clear n Hn.
  - intros s Hs. rewrite after_months_0 in Hs.
    injection Hs as <-. exact H0.
  - intros n Hn IH s Hs. unfold Z.succ in *.
    rewrite after_months_succ in Hs by lia.
    replace (n + 1 - 1)%Z with n in Hs by lia.
    destruct (after_months p n) as [[] s1|e s1] eqn:E; [|discriminate].
    apply (Hstep (n + 1)%Z s1 s); try lia.
    + replace (n + 1 - 1)%Z with n by lia. exact E.
    + replace (n + 1 - 1)%Z with n by lia. apply IH. reflexivity.
    + exact Hs.
Qed.

Lemma month_step_ind (I : Z -> State -> Prop) :
  I 0%Z (initial_state p) ->
  (forall m s s',
      (1 <= m)%Z -> after_months p (m - 1) = Ok tt s -> I (m - 1)%Z s ->
      iteration p m s = Ok tt s' -> I m s') ->
  forall m s s', month_step p m s s' -> I (m - 1)%Z s /\ I m s'.
Proof.
  intros H0 Hstep m s s' (Hm & Hs & Hs').
  assert (Hpre : I (m - 1)%Z s).
  { apply (months_ind I H0 Hstep (m - 1)%Z s); [lia|exact Hs]. }
  split; [exact Hpre|]. apply (Hstep m s s'); try assumption. lia.
Qed.

End LoopFacts.

(** ** One pass of the loop as a function on stores

    Each statement group of the body is matched with the store it
    leaves when nothing raises; [step] is their composition, written
    out flat. *)

(** The test of line 100. *)
Definition escalates (m : Z) : bool := ((m mod 12 =? 1) && (m >? 1))%Z.

(** The test of lines 108 and 120 once the remainder is defined. *)
Definition cleaning_due (p : Inputs) (m : Z) : bool :=
  ((m mod cleaning_frequency p =? 0) && (m >=? ramp_up p))%Z.

(** The test of line 106. *)
Definition ramp_period (p : Inputs) (m : Z) : bool :=
  ((m >? ramp_up p) && (m <? cleaning_frequency p))%Z.

Definition escalated (p : Inputs) (m : Z) (s : State) : State :=
  if escalates m then
    set_sub_cost (sub_cost s * (1 + yearly_sub_increase p))
      (set_fuel_cost_current
         (fuel_cost_current s * (1 + yearly_sub_increase p)) s)
  else s.

Definition cleaned (p : Inputs) (s : State) : State :=
  set_last_saving_pct (total_saving_pct p * post_cleaning_saving_pct p)
    (set_saving_pct (total_saving_pct p * post_cleaning_saving_pct p) s).

Definition deteriorated (p : Inputs) (s : State) : State :=
  let v := Py.max0 (last_saving_pct s - monthly_deterioration p * 100) in
  set_saving_pct v (set_last_saving_pct v s).

Definition policed (p : Inputs) (m : Z) (s : State) : State :=
  if (m <? ramp_up p)%Z then set_saving_pct 0 s
  else if ramp_period p m then
    set_saving_pct (total_saving_pct p * ramp_up_saving_pct p) s
  else if cleaning_due p m then cleaned p s
  else deteriorated p s.

Definition ledgered (p : Inputs) (m : Z) (s : State) : State :=
  let fsd := fuel_cost_current s * (saving_pct s / 100) in
  let mf := fuel_cost_current s / fuel_price p in
  let hc := if cleaning_due p m then cleaning_cost p else 0 in
  let oc := if (m =? 1)%Z then one_time_cost p + crew_cost p else 0 in
  let tmc := sub_cost s + hc + oc in
  let cs := cumulative_savings s + fsd in
  let ctc := cumulative_total_cost s + tmc in
  let pr := cs - ctc in
  {| data := data s;
     cumulative_sub_cost := cumulative_sub_cost s + sub_cost s;
     cumulative_savings := cs;
     cumulative_total_cost := ctc;
     total_fuel_mt := total_fuel_mt s + mf;
     fuel_cost_current := fuel_cost_current s;
     sub_cost := sub_cost s;
     saving_pct := saving_pct s;
     last_saving_pct := last_saving_pct s;
     month := month s;
     fuel_saving_dollars := Some fsd;
     monthly_fuel_mt := Some mf;
     hull_cleaning := Some hc;
     other_cost := Some oc;
     total_monthly_cost := Some tmc;
     profit := Some pr;
     roi := Some (if Py.ltb 0 ctc then pr / ctc else - (1)) |}.

Lemma Ok_inj {A} (a b : A) (s t : State) :
  Ok a s = Ok b t -> a = b /\ s = t.
Proof. intros H. injection H as -> ->. split; reflexivity. Qed.

Lemma Raise_inj {A} (e e' : exn) (s t : State) :
  @Raise A e s = Raise e' t -> e = e' /\ s = t.
Proof. intros H. injection H as -> ->. split; reflexivity. Qed.

Lemma Ok_not_Raise {A} (a : A) (e : exn) (s t : State) :
  Ok a s = Raise e t -> False.
Proof. intros H. inversion H. Qed.

Section Stages.

Variable p : Inputs.

Lemma escalation_run (m : Z) (s : State) :
  escalation p m s = Ok tt (escalated p m s).
Proof.
  unfold escalation, escalated, escalates.
  destruct ((m mod 12 =? 1) && (m >? 1))%Z; reflexivity.
Qed.

Lemma cleaning_month_run (m : Z) (s : State) :
  cleaning_frequency p <> 0%Z ->
  cleaning_month p m s = Ok (cleaning_due p m) s.
Proof.
  intros HF. apply Z.eqb_neq in HF.
  unfold cleaning_month, py_mod, bind. rewrite HF. reflexivity.
Qed.

Lemma cleaning_month_raise (m : Z) (s : State) :
  cleaning_frequency p = 0%Z ->
  cleaning_month p m s = Raise ZeroDivisionError s.
Proof.
  intros HF. unfold cleaning_month, py_mod, bind. rewrite HF. reflexivity.
Qed.

(** Branches 1 and 2 never take a remainder. *)
Lemma savings_policy_early (m : Z) (s : State) :
  ((m <? ramp_up p)%Z || ramp_period p m) = true ->
  savings_policy p m s = Ok tt (policed p m s).
Proof.
  unfold savings_policy, policed, ramp_period.
  destruct (m <? ramp_up p)%Z; [reflexivity|].
  destruct ((m >? ramp_up p) && (m <? cleaning_frequency p))%Z;
    [reflexivity|discriminate].
Qed.

Lemma savings_policy_run (m : Z) (s : State) :
  cleaning_frequency p <> 0%Z ->
  savings_policy p m s = Ok tt (policed p m s).
Proof.
  intros HF. unfold savings_policy, policed, ramp_period.
  destruct (m <? ramp_up p)%Z; [reflexivity|].
  destruct ((m >? ramp_up p) && (m <? cleaning_frequency p))%Z;
    [reflexivity|].
  unfold bind. rewrite (cleaning_month_run m s HF).
  destruct (cleaning_due p m); reflexivity.
Qed.

Lemma savings_policy_raise (m : Z) (s : State) :
  cleaning_frequency p = 0%Z ->
  ((m <? ramp_up p)%Z || ramp_period p m) = false ->
  savings_policy p m s = Raise ZeroDivisionError s.
Proof.
  intros HF. unfold savings_policy, ramp_period.
  destruct (m <? ramp_up p)%Z; [discriminate|].
  destruct ((m >? ramp_up p) && (m <? cleaning_frequency p))%Z;
    [discriminate|].
  intros _. unfold bind. rewrite (cleaning_month_raise m s HF).
  reflexivity.
Qed.

Lemma py_div_run (x y : Q) (s : State) :
  ~ y == 0 -> py_div x y s = Ok (x / y) s.
Proof.
  intros Hy. unfold py_div.
  destruct (Qeq_bool y 0) eqn:E; [|reflexivity].
  apply Qeq_bool_iff in E. contradiction.
Qed.

Lemma py_div_raise (x y : Q) (s : State) :
  y == 0 -> py_div x y s = Raise ZeroDivisionError s.
Proof.
  intros Hy. unfold py_div. apply Qeq_bool_iff in Hy. rewrite Hy.
  reflexivity.
Qed.

Lemma ledger_run (m : Z) (s : State) :
  cleaning_frequency p <> 0%Z -> ~ fuel_price p == 0 ->
  ledger p m s = Ok tt (ledgered p m s).
Proof.
  intros HF Hp. unfold ledger.
  unfold bind at 1 2 3. unfold read at 1 2, assign at 1.
  unfold bind at 1. rewrite (py_div_run _ _ _ Hp).
  unfold bind at 1 2 3 4 5 6 7 8.
  unfold assign at 1 2 3 4, read at 1 2 3 4.
  unfold bind at 1. rewrite (cleaning_month_run m _ HF).
  reflexivity.
Qed.

End Stages.

(** The value of a variable the loop has bound. *)
Definition bound (o : option Q) : Q :=
  match o with Some v => v | None => 0 end.

Definition row_of (m : Z) (s : State) : Row :=
  {| Month := m;
     Fuel_Cost := Py.round (fuel_cost_current s);
     Subscription_Cost := Py.round (sub_cost s);
     Cumulative_Subscription_Cost := Py.round (cumulative_sub_cost s);
     Hull_Cleaning_Cost := Py.round (bound (hull_cleaning s));
     Savings_in_Fuel := Py.round2 (saving_pct s);
     Fuel_Cost_Savings := Py.round (bound (fuel_saving_dollars s));
     Cumulative_Savings := Py.round (cumulative_savings s);
     Cumulative_Total_Cost := Py.round (cumulative_total_cost s);
     Profit := Py.round (bound (profit s));
     Cumulative_ROI :=
       (Py.format_1f (bound (roi s) * 100) ++ "%")%string |}.

Definition recorded (m : Z) (s : State) : State :=
  set_data (data s ++ [row_of m s]) s.

(** The store when line 115 is reached. *)
Definition before_ledger (p : Inputs) (m : Z) (s : State) : State :=
  policed p m (escalated p m (set_month m s)).

(** One pass of the loop when nothing raises. *)
Definition step (p : Inputs) (m : Z) (s : State) : State :=
  recorded m (ledgered p m (before_ledger p m s)).

Section Pass.

Variable p : Inputs.

Lemma append_row_run (m : Z) (s : State) (hc fsd pr r : Q) :
  month s = Some m -> hull_cleaning s = Some hc ->
  fuel_saving_dollars s = Some fsd -> profit s = Some pr ->
  roi s = Some r ->
  append_row s = Ok tt (recorded m s).
Proof.
  intros Hm Hhc Hfsd Hpr Hr.
  unfold append_row, recorded, row_of, bind, fetch, read, assign.
  rewrite Hm, Hhc, Hfsd, Hpr, Hr. reflexivity.
Qed.

Lemma escalated_month (m : Z) (s : State) :
  month (escalated p m s) = month s.
Proof. unfold escalated. destruct (escalates m); reflexivity. Qed.

Lemma policed_month (m : Z) (s : State) :
  month (policed p m s) = month s.
Proof.
  unfold policed.
  destruct (m <? ramp_up p)%Z; [reflexivity|].
  destruct (ramp_period p m); [reflexivity|].
  destruct (cleaning_due p m); reflexivity.
Qed.

Lemma escalated_data (m : Z) (s : State) :
  data (escalated p m s) = data s.
Proof. unfold escalated. destruct (escalates m); reflexivity. Qed.

Lemma policed_data (m : Z) (s : State) :
  data (policed p m s) = data s.
Proof.
  unfold policed.
  destruct (m <? ramp_up p)%Z; [reflexivity|].
  destruct (ramp_period p m); [reflexivity|].
  destruct (cleaning_due p m); reflexivity.
Qed.

(** With a nonzero cleaning frequency and a nonzero fuel price the
    pass finishes, and leaves [step]. *)
Lemma iteration_run (m : Z) (s : State) :
  cleaning_frequency p <> 0%Z -> ~ fuel_price p == 0 ->
  iteration p m s = Ok tt (step p m s).
Proof.
  intros HF Hp. unfold iteration, loop_body, step, before_ledger.
  unfold bind at 1. unfold assign at 1.
  unfold bind at 1. rewrite escalation_run.
  unfold bind at 1. rewrite (savings_policy_run p _ _ HF).
  unfold bind at 1. rewrite (ledger_run p _ _ HF Hp).
  eapply append_row_run; try reflexivity.
  cbn [ledgered month]. rewrite policed_month, escalated_month.
  reflexivity.
Qed.

(** Otherwise it raises [ZeroDivisionError], with [month] bound and
    no row appended. *)
Lemma iteration_raise (m : Z) (s : State) :
  cleaning_frequency p = 0%Z \/ fuel_price p == 0 ->
  exists s', iteration p m s = Raise ZeroDivisionError s'
             /\ month s' = Some m /\ data s' = data s.
Proof.
  intros Hbad. unfold iteration, loop_body.
  unfold bind at 1. unfold assign at 1.
  unfold bind at 1. rewrite escalation_run.
  unfold bind at 1.
  set (s1 := escalated p m (set_month m s)).
  assert (Hm1 : month s1 = Some m)
    by (unfold s1; rewrite escalated_month; reflexivity).
  assert (Hd1 : data s1 = data s)
    by (unfold s1; rewrite escalated_data; reflexivity).
  assert (Hpol :
    savings_policy p m s1 = Raise ZeroDivisionError s1
    \/ savings_policy p m s1 = Ok tt (policed p m s1)).
  { destruct (Z.eq_dec (cleaning_frequency p) 0) as [HF|HF].
    - destruct ((m <? ramp_up p)%Z || ramp_period p m) eqn:E.
      + right. apply savings_policy_early. exact E.
      + left. apply savings_policy_raise; assumption.
    - right. apply savings_policy_run. exact HF. }
  destruct Hpol as [-> | ->]; [eauto|].
  set (s2 := policed p m s1).
  assert (Hm2 : month s2 = Some m)
    by (unfold s2; rewrite policed_month; exact Hm1).
  assert (Hd2 : data s2 = data s)
    by (unfold s2; rewrite policed_data; exact Hd1).
  unfold bind at 1. unfold ledger.
  unfold bind at 1 2 3. unfold read at 1 2, assign at 1.
  unfold bind at 1.
  destruct (Qeq_dec (fuel_price p) 0) as [Hp|Hp].
  - rewrite (py_div_raise _ _ _ Hp).
    eexists. split; [reflexivity|]. split; assumption.
  - rewrite (py_div_run _ _ _ Hp).
    destruct Hbad as [HF|Hp']; [|contradiction].
    unfold bind at 1 2 3 4 5 6 7 8.
    unfold assign at 1 2 3 4, read at 1 2 3 4.
    unfold bind at 1. rewrite (cleaning_month_raise p m _ HF).
    eexists. split; [reflexivity|]. split; assumption.
Qed.

Lemma iteration_inv (m : Z) (s s' : State) :
  iteration p m s = Ok tt s' ->
  cleaning_frequency p <> 0%Z /\ ~ fuel_price p == 0 /\ s' = step p m s.
Proof.
  intros H.
  destruct (Z.eq_dec (cleaning_frequency p) 0) as [HF|HF].
  { destruct (iteration_raise m s (or_introl HF)) as (s1 & E & _).
    rewrite E in H. exfalso. inversion H. }
  destruct (Qeq_dec (fuel_price p) 0) as [Hp|Hp].
  { destruct (iteration_raise m s (or_intror Hp)) as (s1 & E & _).
    rewrite E in H. exfalso. inversion H. }
  rewrite (iteration_run m s HF Hp) in H.
  apply Ok_inj in H. destruct H as [_ <-]. auto.
Qed.

End Pass.

(** ** The fields of the store after one pass *)

(** A cost level after the test of line 100. *)
Definition level (p : Inputs) (m : Z) (x : Q) : Q :=
  if escalates m then x * (1 + yearly_sub_increase p) else x.

(** [saving_pct] and [last_saving_pct] after lines 104-113, from the
    month and the carried [last_saving_pct]. *)
Definition policy (p : Inputs) (m : Z) (last : Q) : Q * Q :=
  if (m <? ramp_up p)%Z then (0, last)
  else if ramp_period p m then
    (total_saving_pct p * ramp_up_saving_pct p, last)
  else if cleaning_due p m then
    (total_saving_pct p * post_cleaning_saving_pct p,
     total_saving_pct p * post_cleaning_saving_pct p)
  else
    (Py.max0 (last - monthly_deterioration p * 100),
     Py.max0 (last - monthly_deterioration p * 100)).

Definition hull_charge (p : Inputs) (m : Z) : Q :=
  if cleaning_due p m then cleaning_cost p else 0.

Definition other_charge (p : Inputs) (m : Z) : Q :=
  if (m =? 1)%Z then one_time_cost p + crew_cost p else 0.

Ltac by_stages :=
  unfold before_ledger, policed, escalated, cleaned, deteriorated,
    level, policy;
  repeat match goal with
    | |- context [escalates ?m] => destruct (escalates m)
    | |- context [(?m <? ramp_up ?p)%Z] => destruct (m <? ramp_up p)%Z
    | |- context [ramp_period ?p ?m] => destruct (ramp_period p m)
    | |- context [cleaning_due ?p ?m] => destruct (cleaning_due p m)
    end;
  reflexivity.

Section BeforeLedger.

Variables (p : Inputs) (m : Z) (s : State).

Let s2 := before_ledger p m s.

Lemma pre_month : month s2 = Some m.
Proof. subst s2. by_stages. Qed.

Lemma pre_data : data s2 = data s.
Proof. subst s2. by_stages. Qed.

Lemma pre_fuel_cost_current :
  fuel_cost_current s2 = level p m (fuel_cost_current s).
Proof. subst s2. by_stages. Qed.

Lemma pre_sub_cost : sub_cost s2 = level p m (sub_cost s).
Proof. subst s2. by_stages. Qed.

Lemma pre_saving_pct :
  saving_pct s2 = fst (policy p m (last_saving_pct s)).
Proof. subst s2. by_stages. Qed.

Lemma pre_last_saving_pct :
  last_saving_pct s2 = snd (policy p m (last_saving_pct s)).
Proof. subst s2. by_stages. Qed.

Lemma pre_cumulative_sub_cost :
  cumulative_sub_cost s2 = cumulative_sub_cost s.
Proof. subst s2. by_stages. Qed.

Lemma pre_cumulative_savings :
  cumulative_savings s2 = cumulative_savings s.
Proof. subst s2. by_stages. Qed.

Lemma pre_cumulative_total_cost :
  cumulative_total_cost s2 = cumulative_total_cost s.
Proof. subst s2. by_stages. Qed.

Lemma pre_total_fuel_mt : total_fuel_mt s2 = total_fuel_mt s.
Proof. subst s2. by_stages. Qed.

End BeforeLedger.

Ltac by_ledger :=
  unfold step, recorded, row_of, hull_charge, other_charge;
  cbn [set_data ledgered data cumulative_sub_cost cumulative_savings
       cumulative_total_cost total_fuel_mt fuel_cost_current sub_cost
       saving_pct last_saving_pct month fuel_saving_dollars
       monthly_fuel_mt hull_cleaning other_cost total_monthly_cost
       profit roi bound];
  rewrite ?pre_month, ?pre_data, ?pre_fuel_cost_current, ?pre_sub_cost,
    ?pre_saving_pct, ?pre_last_saving_pct, ?pre_cumulative_sub_cost,
    ?pre_cumulative_savings, ?pre_cumulative_total_cost,
    ?pre_total_fuel_mt;
  reflexivity.

Section StepFields.

Variables (p : Inputs) (m : Z) (s : State).

Let s' := step p m s.

Lemma step_month : month s' = Some m.
Proof. subst s'. by_ledger. Qed.

Lemma step_fuel_cost_current :
  fuel_cost_current s' = level p m (fuel_cost_current s).
Proof. subst s'. by_ledger. Qed.

Lemma step_sub_cost : sub_cost s' = level p m (sub_cost s).
Proof. subst s'. by_ledger. Qed.

Lemma step_saving_pct :
  saving_pct s' = fst (policy p m (last_saving_pct s)).
Proof. subst s'. by_ledger. Qed.

Lemma step_last_saving_pct :
  last_saving_pct s' = snd (policy p m (last_saving_pct s)).
Proof. subst s'. by_ledger. Qed.

Lemma step_fuel_saving_dollars :
  fuel_saving_dollars s'
  = Some (fuel_cost_current s' * (saving_pct s' / 100)).
Proof. subst s'. by_ledger. Qed.

Lemma step_monthly_fuel_mt :
  monthly_fuel_mt s' = Some (fuel_cost_current s' / fuel_price p).
Proof. subst s'. by_ledger. Qed.

Lemma step_total_fuel_mt :
  total_fuel_mt s'
  = total_fuel_mt s + fuel_cost_current s' / fuel_price p.
Proof. subst s'. by_ledger. Qed.

Lemma step_cumulative_savings :
  cumulative_savings s'
  = cumulative_savings s + fuel_cost_current s' * (saving_pct s' / 100).
Proof. subst s'. by_ledger. Qed.

Lemma step_cumulative_sub_cost :
  cumulative_sub_cost s' = cumulative_sub_cost s + sub_cost s'.
Proof. subst s'. by_ledger. Qed.

Lemma step_hull_cleaning : hull_cleaning s' = Some (hull_charge p m).
Proof. subst s'. by_ledger. Qed.

Lemma step_other_cost : other_cost s' = Some (other_charge p m).
Proof. subst s'. by_ledger. Qed.

Lemma step_total_monthly_cost :
  total_monthly_cost s'
  = Some (sub_cost s' + hull_charge p m + other_charge p m).
Proof. subst s'. by_ledger. Qed.

Lemma step_cumulative_total_cost :
  cumulative_total_cost s'
  = cumulative_total_cost s
    + (sub_cost s' + hull_charge p m + other_charge p m).
Proof. subst s'. by_ledger. Qed.

Lemma step_profit :
  profit s' = Some (cumulative_savings s' - cumulative_total_cost s').
Proof. subst s'. by_ledger. Qed.

Lemma step_roi :
  roi s'
  = Some (if Py.ltb 0 (cumulative_total_cost s')
          then (cumulative_savings s' - cumulative_total_cost s')
               / cumulative_total_cost s'
          else - (1)).
Proof. subst s'. by_ledger. Qed.

Lemma step_data :
  data s'
  = data s ++
    [ {| Month := m;
         Fuel_Cost := Py.round (fuel_cost_current s');
         Subscription_Cost := Py.round (sub_cost s');
         Cumulative_Subscription_Cost :=
           Py.round (cumulative_sub_cost s');
         Hull_Cleaning_Cost := Py.round (hull_charge p m);
         Savings_in_Fuel := Py.round2 (saving_pct s');
         Fuel_Cost_Savings :=
           Py.round (fuel_cost_current s' * (saving_pct s' / 100));
         Cumulative_Savings := Py.round (cumulative_savings s');
         Cumulative_Total_Cost := Py.round (cumulative_total_cost s');
         Profit :=
           Py.round (cumulative_savings s' - cumulative_total_cost s');
         Cumulative_ROI :=
           (Py.format_1f
              ((if Py.ltb 0 (cumulative_total_cost s')
                then (cumulative_savings s' - cumulative_total_cost s')
                     / cumulative_total_cost s'
                else - (1)) * 100) ++ "%")%string |} ].
Proof. subst s'. by_ledger. Qed.

End StepFields.

(** ** Conditions on the inputs *)

Definition savings_nonneg (p : Inputs) : Prop :=
  0 <= saving_hull p /\ 0 <= saving_voyage p /\ 0 <= saving_emission p
  /\ 0 <= saving_scorecard p /\ 0 <= saving_propulsion p.

Definition costs_nonneg (p : Inputs) : Prop :=
  0 <= cost_hull p /\ 0 <= cost_voyage p /\ 0 <= cost_emission p
  /\ 0 <= cost_scorecard p /\ 0 <= cost_propulsion p
  /\ 0 <= cleaning_cost p /\ 0 <= one_time_cost p /\ 0 <= crew_cost p.

Definition fuel_nonneg (p : Inputs) : Prop :=
  0 <= fuel_price p /\ 0 <= daily_fuel p /\ (0 <= op_days p)%Z.

Definition rates_nonneg (p : Inputs) : Prop :=
  0 <= monthly_deterioration_input p /\ 0 <= yearly_sub_increase_input p.

Definition shares_in_range (p : Inputs) : Prop :=
  (0 <= ramp_up_saving_pct_input p /\ ramp_up_saving_pct_input p <= 100)
  /\ (0 <= post_cleaning_saving_pct_input p
      /\ post_cleaning_saving_pct_input p <= 100).

(** Modelled from the spec: the validation rules of its Parameter
    Resolver, which the script does not have (its widgets bound
    [years], [fleet_size] and the five saving sliders, nothing
    else). *)
Definition spec_valid (p : Inputs) : Prop :=
  (1 <= years p <= 5)%Z /\ (1 <= fleet_size p)%Z
  /\ fuel_nonneg p /\ savings_nonneg p /\ costs_nonneg p
  /\ (0 <= ramp_up p)%Z /\ (1 <= cleaning_frequency p)%Z
  /\ rates_nonneg p /\ shares_in_range p.

(** ** Concrete inputs *)

(** The scenario of the spec's testable properties; these are also
    the widgets' default values, but for a contract of one year. *)
Definition scenario : Inputs :=
  {| years := 1; fleet_size := 10; fuel_price := 550; daily_fuel := 20;
     op_days := 200;
     saving_hull := 2; saving_voyage := 1; saving_emission := 5 # 10;
     saving_scorecard := 2 # 10; saving_propulsion := 0;
     cost_hull := 250; cost_voyage := 250; cost_emission := 250;
     cost_scorecard := 250; cost_propulsion := 0;
     ramp_up := 6; cleaning_cost := 15000; cleaning_frequency := 9;
     one_time_cost := 1000; crew_cost := 100;
     monthly_deterioration_input := 1 # 10;
     yearly_sub_increase_input := 10;
     ramp_up_saving_pct_input := 60;
     post_cleaning_saving_pct_input := 100 |}.

(** The scenario with a cleaning frequency of 0. *)
Definition zero_frequency : Inputs :=
  {| years := 1; fleet_size := 10; fuel_price := 550; daily_fuel := 20;
     op_days := 200;
     saving_hull := 2; saving_voyage := 1; saving_emission := 5 # 10;
     saving_scorecard := 2 # 10; saving_propulsion := 0;
     cost_hull := 250; cost_voyage := 250; cost_emission := 250;
     cost_scorecard := 250; cost_propulsion := 0;
     ramp_up := 6; cleaning_cost := 15000; cleaning_frequency := 0;
     one_time_cost := 1000; crew_cost := 100;
     monthly_deterioration_input := 1 # 10;
     yearly_sub_increase_input := 10;
     ramp_up_saving_pct_input := 60;
     post_cleaning_saving_pct_input := 100 |}.

(** The scenario with a fuel price of 0. *)
Definition free_fuel : Inputs :=
  {| years := 1; fleet_size := 10; fuel_price := 0; daily_fuel := 20;
     op_days := 200;
     saving_hull := 2; saving_voyage := 1; saving_emission := 5 # 10;
     saving_scorecard := 2 # 10; saving_propulsion := 0;
     cost_hull := 250; cost_voyage := 250; cost_emission := 250;
     cost_scorecard := 250; cost_propulsion := 0;
     ramp_up := 6; cleaning_cost := 15000; cleaning_frequency := 9;
     one_time_cost := 1000; crew_cost := 100;
     monthly_deterioration_input := 1 # 10;
     yearly_sub_increase_input := 10;
     ramp_up_saving_pct_input := 60;
     post_cleaning_saving_pct_input := 100 |}.

(** The values the widgets start with: the scenario over three
    years. *)
Definition defaults : Inputs :=
  {| years := 3; fleet_size := 10; fuel_price := 550; daily_fuel := 20;
     op_days := 200;
     saving_hull := 2; saving_voyage := 1; saving_emission := 5 # 10;
     saving_scorecard := 2 # 10; saving_propulsion := 0;
     cost_hull := 250; cost_voyage := 250; cost_emission := 250;
     cost_scorecard := 250; cost_propulsion := 0;
     ramp_up := 6; cleaning_cost := 15000; cleaning_frequency := 9;
     one_time_cost := 1000; crew_cost := 100;
     monthly_deterioration_input := 1 # 10;
     yearly_sub_increase_input := 10;
     ramp_up_saving_pct_input := 60;
     post_cleaning_saving_pct_input := 100 |}.

(** The store a run ends with, whether it finished or raised. *)
Definition final_store (r : result unit) : State :=
  match r with Ok _ s => s | Raise _ s => s end.

(** Closed comparisons of numerals. *)
Ltac closed :=
  vm_compute; first [reflexivity | discriminate | intro; discriminate].

Lemma spec_valid_scenario : spec_valid scenario.
Proof.
  unfold spec_valid, fuel_nonneg, savings_nonneg, costs_nonneg,
    rates_nonneg, shares_in_range.
  repeat split; closed.
Qed.

(** ** The savings policy (lines 104-113) *)

(** C1.  The branches of the savings policy are tried in this order:
    before the ramp-up month the saving is 0; strictly between the
    ramp-up month and the cleaning frequency it is the ramp share of
    the total; otherwise, in a month that is a multiple of the cleaning
    frequency and not before the ramp-up month, it is the cleaning
    share of the total, which also becomes [last_saving_pct];
    otherwise it is [max(0, last_saving_pct - deterioration * 100)],
    which also becomes [last_saving_pct].  Nothing else in the store
    changes.  In the ramp-up month itself the first two branches do not
    match: the month is treated as a cleaning month when the ramp-up
    month is a multiple of the cleaning frequency and as a
    deterioration month otherwise. *)
Theorem savings_policy_precedence (p : Inputs) (m : Z) (s : State) :
  let R := ramp_up p in
  let F := cleaning_frequency p in
  let T := total_saving_pct p in
  let clean :=
    set_last_saving_pct (T * post_cleaning_saving_pct p)
      (set_saving_pct (T * post_cleaning_saving_pct p) s) in
  let decay :=
    let v := Py.max0 (last_saving_pct s - monthly_deterioration p * 100) in
    set_saving_pct v (set_last_saving_pct v s) in
  ((m < R)%Z -> savings_policy p m s = Ok tt (set_saving_pct 0 s))
  /\ (~ (m < R)%Z -> (R < m < F)%Z ->
      savings_policy p m s
      = Ok tt (set_saving_pct (T * ramp_up_saving_pct p) s))
  /\ (~ (m < R)%Z -> ~ (R < m < F)%Z -> F <> 0%Z ->
      ((m mod F = 0)%Z /\ (m >= R)%Z) ->
      savings_policy p m s = Ok tt clean)
  /\ (~ (m < R)%Z -> ~ (R < m < F)%Z -> F <> 0%Z ->
      ~ ((m mod F = 0)%Z /\ (m >= R)%Z) ->
      savings_policy p m s = Ok tt decay)
  /\ (m = R -> F <> 0%Z ->
      ~ (m < R)%Z /\ ~ (R < m < F)%Z
      /\ ((R mod F = 0)%Z -> savings_policy p m s = Ok tt clean)
      /\ ((R mod F <> 0)%Z -> savings_policy p m s = Ok tt decay)).
Proof.
  intros R F T clean decay.
  assert (Hlate : ~ (m < R)%Z -> ~ (R < m < F)%Z -> F <> 0%Z ->
                  savings_policy p m s
                  = Ok tt (if cleaning_due p m then clean else decay)).
  { intros H1 H2 HF. rewrite (savings_policy_run p m s HF).
    unfold policed, ramp_period. fold R F.
    destruct (Z.ltb_spec m R) as [?|_]; [lia|].
    destruct (Z.gtb_spec m R) as [?|?];
      destruct (Z.ltb_spec m F) as [?|?]; try lia; reflexivity. }
  assert (Hdue : cleaning_due p m = true <-> (m mod F = 0)%Z /\ (m >= R)%Z).
  { unfold cleaning_due. fold R F.
    rewrite andb_true_iff, Z.eqb_eq, Z.geb_le. lia. }
  repeat split.
  - intros H. rewrite savings_policy_early.
    + unfold policed. fold R. apply Z.ltb_lt in H. rewrite H. reflexivity.
    + fold R. apply Z.ltb_lt in H. rewrite H. reflexivity.
  - intros H1 [H2 H3]. rewrite savings_policy_early.
    + unfold policed, ramp_period. fold R F.
      destruct (Z.ltb_spec m R) as [?|_]; [lia|].
      destruct (Z.gtb_spec m R) as [_|?]; [|lia].
      destruct (Z.ltb_spec m F) as [_|?]; [|lia]. reflexivity.
    + unfold ramp_period. fold R F.
      destruct (Z.gtb_spec m R) as [_|?]; [|lia].
      destruct (Z.ltb_spec m F) as [_|?]; [|lia].
      apply orb_true_r.
  - intros H1 H2 HF Hc. rewrite (Hlate H1 H2 HF).
    apply Hdue in Hc. rewrite Hc. reflexivity.
  - intros H1 H2 HF Hc. rewrite (Hlate H1 H2 HF).
    destruct (cleaning_due p m) eqn:E; [|reflexivity].
    exfalso. apply Hc, Hdue. reflexivity.
  - lia.
  - lia.
  - intros Hc. rewrite Hlate by lia.
    assert (E : cleaning_due p m = true) by (apply Hdue; subst m; lia).
    rewrite E. reflexivity.
  - intros Hc. rewrite Hlate by lia.
    destruct (cleaning_due p m) eqn:E; [|reflexivity].
    exfalso. destruct Hdue as [Hd _]. specialize (Hd eq_refl).
    subst m. lia.
Qed.

Lemma savings_policy_precedence_witness :
  let s := initial_state scenario in
  let decay :=
    set_saving_pct
      (Py.max0 (last_saving_pct s - monthly_deterioration scenario * 100))
      (set_last_saving_pct
         (Py.max0 (last_saving_pct s
                   - monthly_deterioration scenario * 100)) s) in
  savings_policy scenario 3 s = Ok tt (set_saving_pct 0 s)
  /\ savings_policy scenario 7 s
     = Ok tt (set_saving_pct
                (total_saving_pct scenario * ramp_up_saving_pct scenario) s)
  /\ savings_policy scenario 9 s
     = Ok tt (set_last_saving_pct
                (total_saving_pct scenario
                 * post_cleaning_saving_pct scenario)
                (set_saving_pct
                   (total_saving_pct scenario
                    * post_cleaning_saving_pct scenario) s))
  /\ savings_policy scenario 10 s = Ok tt decay
  /\ savings_policy scenario 6 s = Ok tt decay.
Proof.
  intros s decay.
  pose proof (savings_policy_precedence scenario 3 s) as (B1 & _).
  pose proof (savings_policy_precedence scenario 7 s) as (_ & B2 & _).
  pose proof (savings_policy_precedence scenario 9 s) as (_ & _ & B3 & _).
  pose proof (savings_policy_precedence scenario 10 s)
    as (_ & _ & _ & B4 & _).
  pose proof (savings_policy_precedence scenario 6 s)
    as (_ & _ & _ & _ & B5).
  split; [apply B1; closed|].
  split; [apply B2; [closed|split; closed]|].
  split; [apply B3; [closed|cbn; lia|closed|split; closed]|].
  split.
  - apply B4; [closed|cbn; lia|closed|].
    intros [H _]. vm_compute in H. discriminate H.
  - destruct (B5 eq_refl) as (_ & _ & _ & B5'); [closed|].
    apply B5'. closed.
Defined.

(** ** Division by zero *)

Section Faults.

Variable p : Inputs.

(** Once the loop has raised it stays stopped. *)
Lemma after_months_raise_mono (m n : Z) (e : exn) (s : State) :
  (0 <= m <= n)%Z -> after_months p m = Raise e s ->
  after_months p n = Raise e s.
Proof.
  intros [Hm Hn] Hr.
  pattern n. apply Zlt_lower_bound_ind with (z := m); [|exact Hn].
  clear n Hn. intros n IH Hn.
  destruct (Z.eq_dec n m) as [->|Hne]; [exact Hr|].
  rewrite after_months_succ by lia.
  rewrite (IH (n - 1)%Z) by lia. reflexivity.
Qed.

Lemma first_month_raises :
  cleaning_frequency p = 0%Z \/ fuel_price p == 0 ->
  (1 <= months p)%Z ->
  exists st, run p = Raise ZeroDivisionError st
             /\ month st = Some 1%Z /\ data st = [].
Proof.
  intros Hbad Hn.
  destruct (iteration_raise p 1 (initial_state p) Hbad)
    as (st & Hst & Hm & Hd).
  exists st. split; [|split; [exact Hm|exact Hd]].
  unfold run. apply after_months_raise_mono with (m := 1%Z); [lia|].
  rewrite after_months_succ by lia.
  change (1 - 1)%Z with 0%Z. rewrite after_months_0. exact Hst.
Qed.

(** A nonzero cleaning frequency and a nonzero fuel price are all the
    loop needs to finish, one row per month. *)
Lemma after_months_total (n : Z) :
  cleaning_frequency p <> 0%Z -> ~ fuel_price p == 0 -> (0 <= n)%Z ->
  exists st, after_months p n = Ok tt st
             /\ map Month (data st) = Py.range 1 (n + 1).
Proof.
  intros HF Hp Hn. pattern n. apply natlike_ind; [| |exact Hn]; clear n Hn.
  - exists (initial_state p). split; reflexivity.
  - intros n Hn (st & Hst & Hrows). unfold Z.succ.
    exists (step p (n + 1) st). split.
    + rewrite after_months_succ by lia.
      replace (n + 1 - 1)%Z with n by lia. rewrite Hst.
      apply iteration_run; assumption.
    + rewrite step_data, map_app, Hrows. cbn [map Month].
      rewrite (range_snoc 1 (n + 1)) by lia. reflexivity.
Qed.

(** A run either finishes or stops on a division by zero. *)
Lemma run_outcomes :
  (exists st, run p = Ok tt st)
  \/ (exists st, run p = Raise ZeroDivisionError st).
Proof.
  destruct (Z.le_gt_cases 1 (months p)) as [Hn|Hn].
  - destruct (Z.eq_dec (cleaning_frequency p) 0) as [HF|HF].
    { right. destruct (first_month_raises (or_introl HF) Hn) as (st & H & _).
      eauto. }
    destruct (Qeq_dec (fuel_price p) 0) as [Hp|Hp].
    { right. destruct (first_month_raises (or_intror Hp) Hn) as (st & H & _).
      eauto. }
    left. destruct (after_months_total (months p) HF Hp) as (st & H & _);
      [lia|eauto].
  - left. exists (initial_state p). unfold run, after_months.
    rewrite range_nil by lia. reflexivity.
Qed.

End Faults.

(** C2 (as amended).  With a cleaning frequency of 0 there is no
    validation step to reject the input: the month loop is entered,
    and its first pass raises [ZeroDivisionError] with [month] bound
    to 1 and no row appended, so the run ends without any record. *)
Theorem zero_cleaning_frequency_raises (p : Inputs) :
  cleaning_frequency p = 0%Z -> (1 <= years p)%Z ->
  exists st, run p = Raise ZeroDivisionError st
             /\ month st = Some 1%Z /\ data st = [].
Proof.
  intros HF Hy. apply first_month_raises; [left; exact HF|].
  unfold months. lia.
Qed.

Lemma zero_cleaning_frequency_raises_witness :
  exists st, run zero_frequency = Raise ZeroDivisionError st
             /\ month st = Some 1%Z /\ data st = [].
Proof.
  apply (zero_cleaning_frequency_raises zero_frequency); closed.
Defined.

(** C2, as stated, fails on the scenario with a cleaning frequency of
    0: the exception is [ZeroDivisionError], it is raised inside the
    loop at month 1 after the fuel mass of that month has been added
    to [total_fuel_mt], and not from the store the loop starts with. *)
Lemma zero_frequency_not_rejected_before_loop :
  (exists st v,
      run zero_frequency = Raise ZeroDivisionError st
      /\ month st = Some 1%Z
      /\ monthly_fuel_mt st = Some v /\ v == 1000 # 3
      /\ total_fuel_mt st == 1000 # 3)
  /\ ~ (exists e, run zero_frequency
                  = Raise e (initial_state zero_frequency)).
Proof.
  split.
  - eexists. eexists. split; [vm_compute; reflexivity|].
    repeat split; closed.
  - intros [e He]. vm_compute in He. discriminate He.
Qed.

(** ** Totality *)




(** ** Rows and months *)

Section Rows.

Variable p : Inputs.

(** The row a pass appends is built from the store it leaves. *)
Lemma step_appends (m : Z) (s : State) :
  data (step p m s) = data s ++ [row_of m (step p m s)].
Proof.
  unfold step at 1. unfold recorded at 1. cbn [data set_data ledgered].
  rewrite pre_data. reflexivity.
Qed.

Lemma after_months_length (n : Z) (st : State) :
  (0 <= n)%Z -> after_months p n = Ok tt st ->
  List.length (data st) = Z.to_nat n.
Proof.
  intros Hn Hst.
  apply (months_ind p (fun n st => List.length (data st) = Z.to_nat n));
    try assumption; [reflexivity|].
  intros m s s' Hm _ IH Hs'.
  apply iteration_inv in Hs'. destruct Hs' as (_ & _ & ->).
  rewrite step_appends, length_app, IH. cbn [List.length]. lia.
Qed.

(** Row [m - 1] of [data] is the row of month [m]. *)
Lemma row_of_month (n : Z) (st : State) :
  (0 <= n)%Z -> after_months p n = Ok tt st ->
  forall m, (1 <= m <= n)%Z ->
  exists s s',
    after_months p (m - 1) = Ok tt s
    /\ iteration p m s = Ok tt s'
    /\ nth_error (data st) (Z.to_nat (m - 1)) = Some (row_of m s').
Proof.
  intros Hn Hst.
  apply (months_ind p (fun n st =>
    forall m, (1 <= m <= n)%Z ->
    exists s s',
      after_months p (m - 1) = Ok tt s
      /\ iteration p m s = Ok tt s'
      /\ nth_error (data st) (Z.to_nat (m - 1)) = Some (row_of m s')));
    try assumption; [intros m Hm; lia|].
  clear n st Hn Hst. intros n s s' Hn Hs IH Hs' m Hm.
  pose proof (after_months_length (n - 1) s ltac:(lia) Hs) as Hlen.
  pose proof Hs' as Hstep.
  apply iteration_inv in Hstep. destruct Hstep as (_ & _ & Hstep).
  destruct (Z.eq_dec m n) as [->|Hne].
  - exists s, s'. split; [exact Hs|]. split; [exact Hs'|].
    rewrite Hstep at 1. rewrite step_appends.
    rewrite nth_error_app2 by lia. rewrite Hlen, Nat.sub_diag.
    rewrite Hstep. reflexivity.
  - destruct (IH m ltac:(lia)) as (s0 & s0' & H0 & H0' & Hrow).
    exists s0, s0'. split; [exact H0|]. split; [exact H0'|].
    rewrite Hstep, step_appends.
    rewrite nth_error_app1 by lia. exact Hrow.
Qed.

(** Every month of a finished run is a [month_step]. *)
Lemma month_step_of_run (st : State) (m : Z) :
  run p = Ok tt st -> (1 <= m <= months p)%Z ->
  exists s s', month_step p m s s'
               /\ nth_error (data st) (Z.to_nat (m - 1))
                  = Some (row_of m s').
Proof.
  intros Hst Hm. unfold run in Hst.
  destruct (row_of_month (months p) st ltac:(lia) Hst m Hm)
    as (s & s' & Hs & Hs' & Hrow).
  exists s, s'. split; [|exact Hrow]. repeat split; try assumption; lia.
Qed.

Lemma month_step_inv (m : Z) (s s' : State) :
  month_step p m s s' ->
  (1 <= m)%Z /\ cleaning_frequency p <> 0%Z /\ ~ fuel_price p == 0
  /\ s' = step p m s.
Proof.
  intros (Hm & _ & Hs'). apply iteration_inv in Hs'.
  destruct Hs' as (HF & Hp & E). repeat split; try assumption; lia.
Qed.

End Rows.

(** ** Costs never go negative *)

Section Costs.

Variable p : Inputs.
Hypothesis Hcosts : costs_nonneg p.
Hypothesis Hrates : rates_nonneg p.

Lemma escalation_factor_pos : 1 <= 1 + yearly_sub_increase p.
Proof.
  destruct Hrates as [_ Hy]. unfold yearly_sub_increase. qlra.
Qed.

Lemma level_nonneg (m : Z) (x : Q) : 0 <= x -> 0 <= level p m x.
Proof.
  intros Hx. pose proof escalation_factor_pos as Hf.
  unfold level. destruct (escalates m); [nra|exact Hx].
Qed.

Lemma level_ge (m : Z) (x : Q) : 0 <= x -> x <= level p m x.
Proof.
  intros Hx. pose proof escalation_factor_pos as Hf.
  unfold level. destruct (escalates m); [nra|lra].
Qed.

Lemma initial_sub_cost_nonneg : 0 <= initial_sub_cost p.
Proof.
  destruct Hcosts as (H1 & H2 & H3 & H4 & H5 & _).
  unfold initial_sub_cost, Py.sum. cbn [fold_left]. lra.
Qed.

Lemma hull_charge_nonneg (m : Z) : 0 <= hull_charge p m.
Proof.
  destruct Hcosts as (_ & _ & _ & _ & _ & H6 & _).
  unfold hull_charge. destruct (cleaning_due p m); [exact H6|lra].
Qed.

Lemma other_charge_nonneg (m : Z) : 0 <= other_charge p m.
Proof.
  destruct Hcosts as (_ & _ & _ & _ & _ & _ & H7 & H8).
  unfold other_charge. destruct (m =? 1)%Z; lra.
Qed.

Definition costs_ok (s : State) : Prop :=
  0 <= sub_cost s /\ 0 <= cumulative_sub_cost s
  /\ 0 <= cumulative_total_cost s.

Lemma costs_ok_initial : costs_ok (initial_state p).
Proof.
  unfold costs_ok. cbn [initial_state sub_cost cumulative_sub_cost
                          cumulative_total_cost].
  pose proof initial_sub_cost_nonneg. repeat split; lra.
Qed.

Lemma costs_ok_step (m : Z) (s : State) :
  costs_ok s -> costs_ok (step p m s).
Proof.
  intros (H1 & H2 & H3). unfold costs_ok.
  rewrite step_cumulative_sub_cost, step_cumulative_total_cost,
    step_sub_cost.
  pose proof (level_nonneg m _ H1).
  pose proof (hull_charge_nonneg m). pose proof (other_charge_nonneg m).
  repeat split; lra.
Qed.

Lemma costs_ok_month (m : Z) (s s' : State) :
  month_step p m s s' -> costs_ok s /\ costs_ok s'.
Proof.
  apply (month_step_ind p (fun _ s => costs_ok s)).
  - exact costs_ok_initial.
  - intros k s0 s1 _ _ IH Hs1.
    apply iteration_inv in Hs1. destruct Hs1 as (_ & _ & ->).
    apply costs_ok_step. exact IH.
Qed.

End Costs.

(** ** Profit and return on investment (lines 124-125) *)

(** C4.  In every month of every run, with non-negative costs and
    rates, the unrounded values satisfy: the cumulative total cost is
    not negative, [profit = cumulative_savings - cumulative_total_cost],
    and [roi] is -1 when the cumulative total cost is 0 and
    [profit / cumulative_total_cost] otherwise. *)
Theorem profit_and_roi_exact (p : Inputs) (m : Z) (s s' : State) :
  costs_nonneg p -> rates_nonneg p -> month_step p m s s' ->
  0 <= cumulative_total_cost s'
  /\ exists pr r,
      profit s' = Some pr /\ roi s' = Some r
      /\ pr = cumulative_savings s' - cumulative_total_cost s'
      /\ (cumulative_total_cost s' == 0 -> r == - (1))
      /\ (~ cumulative_total_cost s' == 0 ->
          r == pr / cumulative_total_cost s').
Proof.
  intros Hc Hr Hstep.
  destruct (costs_ok_month p Hc Hr m s s' Hstep) as (_ & _ & _ & Hpos).
  split; [exact Hpos|].
  apply month_step_inv in Hstep. destruct Hstep as (_ & _ & _ & ->).
  eexists. eexists.
  split; [apply step_profit|]. split; [apply step_roi|].
  split; [reflexivity|].
  destruct (Py.ltb 0 (cumulative_total_cost (step p m s))) eqn:E.
  - apply ltb_lt in E. split; [intros Hz; lra|reflexivity].
  - apply ltb_ge in E. split; [reflexivity|intros Hz; exfalso].
    apply Hz. lra.
Qed.

(** The store of the scenario after [n] months. *)
Definition scenario_after (n : Z) : State :=
  final_store (after_months scenario n).

Lemma scenario_month_12 :
  month_step scenario 12 (scenario_after 11) (scenario_after 12).
Proof.
  split; [split; closed|]. split; vm_compute; reflexivity.
Qed.

Lemma costs_nonneg_scenario : costs_nonneg scenario.
Proof. unfold costs_nonneg. repeat split; closed. Qed.

Lemma rates_nonneg_scenario : rates_nonneg scenario.
Proof. unfold rates_nonneg. repeat split; closed. Qed.

Lemma profit_and_roi_exact_witness :
  0 <= cumulative_total_cost (scenario_after 12)
  /\ exists pr r,
      profit (scenario_after 12) = Some pr
      /\ roi (scenario_after 12) = Some r
      /\ pr = cumulative_savings (scenario_after 12)
              - cumulative_total_cost (scenario_after 12)
      /\ (cumulative_total_cost (scenario_after 12) == 0 -> r == - (1))
      /\ (~ cumulative_total_cost (scenario_after 12) == 0 ->
          r == pr / cumulative_total_cost (scenario_after 12)).
Proof.
  apply (profit_and_roi_exact scenario 12 (scenario_after 11)).
  - exact costs_nonneg_scenario.
  - exact rates_nonneg_scenario.
  - exact scenario_month_12.
Defined.

(** ** The saving percentage stays within its bounds *)

Definition shares_nonneg (p : Inputs) : Prop :=
  0 <= ramp_up_saving_pct_input p /\ 0 <= post_cleaning_saving_pct_input p.

(** The five saving sliders offer [np.arange(0, 6, 0.1)]: the tenths
    from 0.0 to 5.9. *)
Definition slider_option (q : Q) : Prop :=
  exists k : Z, (0 <= k < 60)%Z /\ q == inject_Z k / 10.

Definition savings_on_slider (p : Inputs) : Prop :=
  slider_option (saving_hull p) /\ slider_option (saving_voyage p)
  /\ slider_option (saving_emission p)
  /\ slider_option (saving_scorecard p)
  /\ slider_option (saving_propulsion p).

Lemma total_saving_on_grid (p : Inputs) :
  savings_on_slider p ->
  exists k : Z, total_saving_pct p == inject_Z k / 100.
Proof.
  intros ((k1 & _ & E1) & (k2 & _ & E2) & (k3 & _ & E3) & (k4 & _ & E4)
          & (k5 & _ & E5)).
  exists (10 * (k1 + k2 + k3 + k4 + k5))%Z.
  unfold total_saving_pct. rewrite E1, E2, E3, E4, E5.
  rewrite inject_Z_mult, !inject_Z_plus.
  change (inject_Z 10) with 10. field.
Qed.

Section Savings.

Variable p : Inputs.
Hypothesis Hsav : savings_nonneg p.

Lemma total_saving_nonneg : 0 <= total_saving_pct p.
Proof.
  destruct Hsav as (H1 & H2 & H3 & H4 & H5).
  unfold total_saving_pct. lra.
Qed.

Lemma policy_saving_nonneg (m : Z) (last : Q) :
  shares_nonneg p -> 0 <= fst (policy p m last).
Proof.
  intros [Hr Hc]. pose proof total_saving_nonneg as HT.
  unfold policy, ramp_up_saving_pct, post_cleaning_saving_pct.
  destruct (m <? ramp_up p)%Z; [cbn [fst]; lra|].
  destruct (ramp_period p m); [cbn [fst]; qnra|].
  destruct (cleaning_due p m); cbn [fst]; [qnra|apply max0_nonneg].
Qed.

Lemma policy_bounds (m : Z) (last : Q) :
  0 <= monthly_deterioration_input p -> shares_in_range p ->
  0 <= last <= total_saving_pct p ->
  (0 <= fst (policy p m last) <= total_saving_pct p)
  /\ (0 <= snd (policy p m last) <= total_saving_pct p).
Proof.
  intros HD [[Hr0 Hr1] [Hc0 Hc1]] [Hl0 Hl1].
  pose proof total_saving_nonneg as HT.
  assert (Hdet : last - monthly_deterioration p * 100 <= last)
    by (unfold monthly_deterioration; qlra).
  pose proof (max0_nonneg (last - monthly_deterioration p * 100)) as Hm0.
  assert (Hm1 : Py.max0 (last - monthly_deterioration p * 100)
                <= total_saving_pct p) by (apply max0_le; lra).
  unfold policy, ramp_up_saving_pct, post_cleaning_saving_pct.
  destruct (m <? ramp_up p)%Z; [cbn [fst snd]; lra|].
  destruct (ramp_period p m); [cbn [fst snd]; repeat split; qnra|].
  destruct (cleaning_due p m); cbn [fst snd];
    [repeat split; qnra|repeat split; assumption].
Qed.

End Savings.


Lemma savings_nonneg_scenario : savings_nonneg scenario.
Proof. unfold savings_nonneg. repeat split; closed. Qed.

Lemma shares_in_range_scenario : shares_in_range scenario.
Proof. unfold shares_in_range. repeat split; closed. Qed.

Lemma savings_on_slider_scenario : savings_on_slider scenario.
Proof.
  unfold savings_on_slider, slider_option. repeat split.
  - exists 20%Z. split; [lia|closed].
  - exists 10%Z. split; [lia|closed].
  - exists 5%Z. split; [lia|closed].
  - exists 2%Z. split; [lia|closed].
  - exists 0%Z. split; [lia|closed].
Qed.

Lemma scenario_run : run scenario = Ok tt (scenario_after 12).
Proof. vm_compute. reflexivity. Qed.


(** ** The cumulative totals never decrease *)

Definition all_nonneg (p : Inputs) : Prop :=
  fuel_nonneg p /\ savings_nonneg p /\ costs_nonneg p /\ rates_nonneg p
  /\ shares_nonneg p.

Section Monotone.

Variable p : Inputs.
Hypothesis Hall : all_nonneg p.

Lemma monthly_fuel_cost_base_nonneg : 0 <= monthly_fuel_cost_base p.
Proof.
  destruct Hall as ((Hfp & Hdf & Hod) & _).
  rewrite Zle_Qle in Hod. change (inject_Z 0) with 0 in Hod.
  unfold monthly_fuel_cost_base.
  assert (0 <= fuel_price p * daily_fuel p) by nra.
  assert (0 <= fuel_price p * daily_fuel p * inject_Z (op_days p)) by nra.
  qlra.
Qed.

Definition levels_ok (s : State) : Prop :=
  0 <= fuel_cost_current s /\ 0 <= sub_cost s.

Lemma levels_ok_month (m : Z) (s s' : State) :
  month_step p m s s' -> levels_ok s /\ levels_ok s'.
Proof.
  destruct Hall as (_ & _ & Hc & Hr & _).
  apply (month_step_ind p (fun _ s => levels_ok s)).
  - split; cbn [initial_state fuel_cost_current sub_cost].
    + exact monthly_fuel_cost_base_nonneg.
    + exact (initial_sub_cost_nonneg p Hc).
  - intros k s0 s1 _ _ [IHf IHs] Hs1.
    apply iteration_inv in Hs1. destruct Hs1 as (_ & _ & ->).
    split.
    + rewrite step_fuel_cost_current. apply (level_nonneg p Hr). exact IHf.
    + rewrite step_sub_cost. apply (level_nonneg p Hr). exact IHs.
Qed.

(** The unrounded totals of one month against those of the month
    before. *)
Lemma totals_grow (m : Z) (s s' : State) :
  month_step p m s s' ->
  cumulative_sub_cost s <= cumulative_sub_cost s'
  /\ cumulative_savings s <= cumulative_savings s'
  /\ cumulative_total_cost s <= cumulative_total_cost s'.
Proof.
  intros Hstep.
  destruct (levels_ok_month m s s' Hstep) as [_ [Hf Hs]].
  destruct Hall as (_ & Hsav & Hc & Hr & Hsh).
  apply month_step_inv in Hstep. destruct Hstep as (_ & _ & _ & E).
  pose proof (policy_saving_nonneg p Hsav m (last_saving_pct s) Hsh) as Hp.
  rewrite <- step_saving_pct, <- E in Hp.
  pose proof (hull_charge_nonneg p Hc m) as Hh.
  pose proof (other_charge_nonneg p Hc m) as Ho.
  rewrite E at 1 2 3.
  rewrite step_cumulative_sub_cost, step_cumulative_savings,
    step_cumulative_total_cost.
  rewrite <- E. repeat split; try lra.
  assert (0 <= fuel_cost_current s' * (saving_pct s' / 100)) by qnra.
  lra.
Qed.

End Monotone.

(** C5.  With all parameters non-negative, the cumulative subscription
    cost, the cumulative savings and the cumulative total cost never
    decrease from one month to the next: this holds for the unrounded
    totals of every month, and for the rounded values in every pair of
    consecutive rows. *)
Theorem cumulative_totals_nondecreasing (p : Inputs) :
  all_nonneg p ->
  (forall m s s', month_step p m s s' ->
     cumulative_sub_cost s <= cumulative_sub_cost s'
     /\ cumulative_savings s <= cumulative_savings s'
     /\ cumulative_total_cost s <= cumulative_total_cost s')
  /\ (forall st i r1 r2,
        run p = Ok tt st ->
        nth_error (data st) i = Some r1 ->
        nth_error (data st) (S i) = Some r2 ->
        (Cumulative_Subscription_Cost r1 <= Cumulative_Subscription_Cost r2
         /\ Cumulative_Savings r1 <= Cumulative_Savings r2
         /\ Cumulative_Total_Cost r1 <= Cumulative_Total_Cost r2)%Z).
Proof.
  intros Hall. split; [apply totals_grow; exact Hall|].
  intros st i r1 r2 Hrun H1 H2.
  assert (Hlen : (S i < List.length (data st))%nat)
    by (apply nth_error_Some; congruence).
  assert (H0 : (0 <= months p)%Z).
  { destruct (Z.le_gt_cases 0 (months p)) as [?|Hneg]; [assumption|].
    exfalso. unfold run, after_months in Hrun.
    rewrite range_nil in Hrun by lia. cbn in Hrun.
    apply Ok_inj in Hrun. destruct Hrun as [_ <-].
    cbn in Hlen. lia. }
  pose proof (after_months_length p (months p) st H0 Hrun) as Hn.
  destruct (month_step_of_run p st (Z.of_nat i + 1) Hrun ltac:(lia))
    as (sa & sa' & Ha & Hrowa).
  destruct (month_step_of_run p st (Z.of_nat i + 2) Hrun ltac:(lia))
    as (sb & sb' & Hb & Hrowb).
  replace (Z.to_nat (Z.of_nat i + 1 - 1)) with i in Hrowa by lia.
  replace (Z.to_nat (Z.of_nat i + 2 - 1)) with (S i) in Hrowb by lia.
  rewrite H1 in Hrowa. rewrite H2 in Hrowb.
  injection Hrowa as ->. injection Hrowb as ->.
  assert (E : sb = sa').
  { destruct Ha as (Hma & Hpa & Hia). destruct Hb as (_ & Hpb & _).
    replace (Z.of_nat i + 2 - 1)%Z with (Z.of_nat i + 1)%Z in Hpb by lia.
    rewrite after_months_succ in Hpb by lia.
    rewrite Hpa, Hia in Hpb. apply Ok_inj in Hpb. symmetry. apply Hpb. }
  subst sb.
  destruct (totals_grow p Hall _ _ _ Hb) as (G1 & G2 & G3).
  cbn [row_of Cumulative_Subscription_Cost Cumulative_Savings
       Cumulative_Total_Cost].
  repeat split; apply round_monotone; assumption.
Qed.

Lemma all_nonneg_scenario : all_nonneg scenario.
Proof.
  unfold all_nonneg, fuel_nonneg, savings_nonneg, costs_nonneg,
    rates_nonneg, shares_nonneg.
  repeat split; closed.
Qed.

Lemma cumulative_totals_nondecreasing_witness :
  (cumulative_sub_cost (scenario_after 11)
   <= cumulative_sub_cost (scenario_after 12)
   /\ cumulative_savings (scenario_after 11)
      <= cumulative_savings (scenario_after 12)
   /\ cumulative_total_cost (scenario_after 11)
      <= cumulative_total_cost (scenario_after 12))
  /\ forall r1 r2,
      nth_error (data (scenario_after 12)) 10 = Some r1 ->
      nth_error (data (scenario_after 12)) 11 = Some r2 ->
      (Cumulative_Subscription_Cost r1 <= Cumulative_Subscription_Cost r2
       /\ Cumulative_Savings r1 <= Cumulative_Savings r2
       /\ Cumulative_Total_Cost r1 <= Cumulative_Total_Cost r2)%Z.
Proof.
  destruct (cumulative_totals_nondecreasing scenario all_nonneg_scenario)
    as [Hexact Hrows].
  split; [exact (Hexact _ _ _ scenario_month_12)|].
  intros r1 r2 H1 H2.
  exact (Hrows (scenario_after 12) 10%nat r1 r2 scenario_run H1 H2).
Defined.

(** ** Yearly escalation (lines 100-102) *)

Lemma escalates_spec (m : Z) :
  escalates m = true <-> (m mod 12 = 1)%Z /\ (m > 1)%Z.
Proof.
  unfold escalates. rewrite andb_true_iff, Z.eqb_eq, Z.gtb_gt. lia.
Qed.

(** Whole contract years completed before month [n + 1]. *)
Definition years_before (n : Z) : Z := (Z.max 0 (n - 1) / 12)%Z.

Lemma years_before_step (m : Z) :
  (1 <= m)%Z ->
  years_before m
  = (years_before (m - 1) + (if escalates m then 1 else 0))%Z.
Proof.
  intros Hm. unfold years_before.
  destruct (escalates m) eqn:E.
  - apply escalates_spec in E.
    replace (Z.max 0 (m - 1)) with (m - 1)%Z by lia.
    replace (Z.max 0 (m - 1 - 1)) with (m - 2)%Z by lia.
    Z.div_mod_to_equations. lia.
  - assert (N : ~ ((m mod 12 = 1)%Z /\ (m > 1)%Z)).
    { intros H. apply escalates_spec in H. congruence. }
    destruct (Z.eq_dec m 1) as [->|Hne]; [reflexivity|].
    replace (Z.max 0 (m - 1)) with (m - 1)%Z by lia.
    replace (Z.max 0 (m - 1 - 1)) with (m - 2)%Z by lia.
    Z.div_mod_to_equations. lia.
Qed.

Lemma years_before_nonneg (n : Z) : (0 <= years_before n)%Z.
Proof. unfold years_before. apply Z.div_pos; lia. Qed.

Lemma Qpower_succ (x : Q) (k : Z) : (0 <= k)%Z -> x ^ (k + 1) == x ^ k * x.
Proof.
  intros Hk. rewrite Qpower_plus' by lia. rewrite Qpower_1_r. reflexivity.
Qed.

Section Escalation.

Variable p : Inputs.

Let factor : Q := 1 + yearly_sub_increase p.

Lemma level_closed (m : Z) (x base : Q) :
  (1 <= m)%Z ->
  x == base * factor ^ years_before (m - 1) ->
  level p m x == base * factor ^ years_before m.
Proof.
  intros Hm Hx. rewrite (years_before_step m Hm). unfold level.
  destruct (escalates m).
  - rewrite Qpower_succ by apply years_before_nonneg.
    fold factor. rewrite Hx. ring.
  - rewrite Z.add_0_r. exact Hx.
Qed.

(** Both levels after [n] months: the starting level times the
    escalation factor once per completed contract year. *)
Lemma levels_closed (n : Z) (s : State) :
  (0 <= n)%Z -> after_months p n = Ok tt s ->
  fuel_cost_current s == monthly_fuel_cost_base p * factor ^ years_before n
  /\ sub_cost s == initial_sub_cost p * factor ^ years_before n.
Proof.
  apply (months_ind p (fun n s =>
    fuel_cost_current s
    == monthly_fuel_cost_base p * factor ^ years_before n
    /\ sub_cost s == initial_sub_cost p * factor ^ years_before n)).
  - cbn [initial_state fuel_cost_current sub_cost].
    change (years_before 0) with 0%Z. cbn [Qpower]. split; ring.
  - intros m s0 s1 Hm _ [IHf IHs] Hs1.
    apply iteration_inv in Hs1. destruct Hs1 as (_ & _ & ->).
    rewrite step_fuel_cost_current, step_sub_cost.
    split; apply level_closed; assumption.
Qed.

(** In the first contract year the subscription level is the very
    value it started with. *)
Lemma sub_cost_first_year (n : Z) (s : State) :
  (0 <= n <= 12)%Z -> after_months p n = Ok tt s ->
  sub_cost s = initial_sub_cost p.
Proof.
  intros [Hn H12] Hs. revert H12. revert n s Hn Hs.
  apply (months_ind p (fun n s =>
    (n <= 12)%Z -> sub_cost s = initial_sub_cost p)).
  - reflexivity.
  - intros m s0 s1 Hm _ IH Hs1 H12.
    apply iteration_inv in Hs1. destruct Hs1 as (_ & _ & ->).
    rewrite step_sub_cost. unfold level.
    destruct (escalates m) eqn:E; [|apply IH; lia].
    apply escalates_spec in E. exfalso.
    destruct E as [E1 E2]. revert E1. Z.div_mod_to_equations. lia.
Qed.

End Escalation.


(** The store of the default inputs after [n] months. *)
Definition defaults_after (n : Z) : State :=
  final_store (after_months defaults n).

Lemma defaults_month_13 :
  month_step defaults 13 (defaults_after 12) (defaults_after 13).
Proof.
  split; [split; closed|]. split; vm_compute; reflexivity.
Qed.

Lemma defaults_run : run defaults = Ok tt (defaults_after 36).
Proof. vm_compute. reflexivity. Qed.


(** ** Fuel mass (lines 116-117) *)

(** C10.  In every month [m] of a run (so the fuel price is not 0), the
    fuel mass of the month, which is what is added to
    [total_fuel_mt], equals [daily_fuel * op_days / 12] times
    [1 + yearly_sub_increase] to the power of the number of contract
    years completed before the month: the mass follows the yearly
    escalation of the fuel cost level. *)
Theorem monthly_fuel_mass_follows_escalation
  (p : Inputs) (m : Z) (s s' : State) :
  month_step p m s s' ->
  ~ fuel_price p == 0
  /\ exists v,
      monthly_fuel_mt s' = Some v
      /\ total_fuel_mt s' = total_fuel_mt s + v
      /\ v = fuel_cost_current s' / fuel_price p
      /\ v == daily_fuel p * inject_Z (op_days p) / 12
              * (1 + yearly_sub_increase p) ^ ((m - 1) / 12).
Proof.
  intros Hstep. pose proof Hstep as (Hm & Hpre & Hit).
  apply month_step_inv in Hstep. destruct Hstep as (_ & _ & Hp & E).
  split; [exact Hp|].
  exists (fuel_cost_current s' / fuel_price p).
  split; [rewrite E; apply step_monthly_fuel_mt|].
  split; [rewrite E; apply step_total_fuel_mt|].
  split; [reflexivity|].
  assert (Hs' : after_months p m = Ok tt s').
  { rewrite after_months_succ by lia. rewrite Hpre. exact Hit. }
  destruct (levels_closed p m s' ltac:(lia) Hs') as [Hf _].
  rewrite Hf. unfold years_before, monthly_fuel_cost_base.
  replace (Z.max 0 (m - 1)) with (m - 1)%Z by lia.
  field. exact Hp.
Qed.

Lemma monthly_fuel_mass_follows_escalation_witness :
  ~ fuel_price defaults == 0
  /\ exists v,
      monthly_fuel_mt (defaults_after 13) = Some v
      /\ total_fuel_mt (defaults_after 13)
         = total_fuel_mt (defaults_after 12) + v
      /\ v = fuel_cost_current (defaults_after 13) / fuel_price defaults
      /\ v == daily_fuel defaults * inject_Z (op_days defaults) / 12
              * (1 + yearly_sub_increase defaults) ^ ((13 - 1) / 12).
Proof.
  apply (monthly_fuel_mass_follows_escalation
           defaults 13 (defaults_after 12) (defaults_after 13)).
  exact defaults_month_13.
Defined.

(** ** The concrete scenario *)

(** C8.  On the scenario the run finishes with twelve rows.  Month 1:
    the subscription cost is 1000, the saving percentage is 0 and the
    total monthly cost is 2100.  Month 9 is the first month in which
    the cleaning test holds: the saving percentage is 3.7 and the hull
    cleaning cost is 15000.  Month 12: the ROI string is the unrounded
    [profit / cumulative_total_cost * 100] printed with one decimal
    and a percent sign, which reads 21.6%. *)
Theorem scenario_rows :
  exists st r1 r9 r12 tmc pr,
    run scenario = Ok tt st
    /\ List.length (data st) = 12%nat
    /\ nth_error (data st) 0 = Some r1
    /\ nth_error (data st) 8 = Some r9
    /\ nth_error (data st) 11 = Some r12
    /\ after_months scenario 1 = Ok tt (scenario_after 1)
    /\ after_months scenario 9 = Ok tt (scenario_after 9)
    /\ (Month r1 = 1%Z /\ Subscription_Cost r1 = 1000%Z
        /\ sub_cost (scenario_after 1) == 1000
        /\ saving_pct (scenario_after 1) == 0
        /\ Savings_in_Fuel r1 == 0
        /\ total_monthly_cost (scenario_after 1) = Some tmc
        /\ tmc == 2100
        /\ Cumulative_Total_Cost r1 = 2100%Z)
    /\ (Month r9 = 9%Z
        /\ forallb (fun m => negb (cleaning_due scenario m)) (Py.range 1 9)
           = true
        /\ cleaning_due scenario 9 = true
        /\ saving_pct (scenario_after 9) == 37 # 10
        /\ Savings_in_Fuel r9 == 37 # 10
        /\ hull_cleaning (scenario_after 9) = Some 15000
        /\ Hull_Cleaning_Cost r9 = 15000%Z)
    /\ (Month r12 = 12%Z
        /\ profit st = Some pr
        /\ Py.ltb 0 (cumulative_total_cost st) = true
        /\ Cumulative_ROI r12
           = (Py.format_1f (pr / cumulative_total_cost st * 100)
                ++ "%")%string
        /\ Cumulative_ROI r12 = "21.6%"%string).
Proof.
  do 6 eexists.
  split; [vm_compute; reflexivity|].
  split; [reflexivity|].
  split; [vm_compute; reflexivity|].
  split; [vm_compute; reflexivity|].
  split; [vm_compute; reflexivity|].
  split; [vm_compute; reflexivity|].
  split; [vm_compute; reflexivity|].
  split; [|split].
  - split; [reflexivity|]. split; [reflexivity|].
    split; [closed|]. split; [closed|]. split; [closed|].
    split; [vm_compute; reflexivity|]. split; [closed|reflexivity].
  - split; [reflexivity|]. split; [closed|]. split; [closed|].
    split; [closed|]. split; [closed|].
    split; [vm_compute; reflexivity|reflexivity].
  - split; [reflexivity|]. split; [vm_compute; reflexivity|].
    split; [closed|]. split; vm_compute; reflexivity.
Qed.

(** ** Hull cleaning (lines 108-110 and 120) *)

(** The scenario without deterioration. *)
Definition no_deterioration : Inputs :=
  {| years := 1; fleet_size := 10; fuel_price := 550; daily_fuel := 20;
     op_days := 200;
     saving_hull := 2; saving_voyage := 1; saving_emission := 5 # 10;
     saving_scorecard := 2 # 10; saving_propulsion := 0;
     cost_hull := 250; cost_voyage := 250; cost_emission := 250;
     cost_scorecard := 250; cost_propulsion := 0;
     ramp_up := 6; cleaning_cost := 15000; cleaning_frequency := 9;
     one_time_cost := 1000; crew_cost := 100;
     monthly_deterioration_input := 0;
     yearly_sub_increase_input := 10;
     ramp_up_saving_pct_input := 60;
     post_cleaning_saving_pct_input := 100 |}.

Lemma cleaning_due_spec (p : Inputs) (m : Z) :
  cleaning_due p m = true
  <-> (m mod cleaning_frequency p = 0)%Z /\ (m >= ramp_up p)%Z.
Proof.
  unfold cleaning_due. rewrite andb_true_iff, Z.eqb_eq, Z.geb_le. lia.
Qed.

(** From month 1 on, the test of line 120 cannot hold in a month that
    the first two branches of the policy take. *)
Lemma cleaning_due_late (p : Inputs) (m : Z) :
  (1 <= m)%Z -> cleaning_due p m = true ->
  (m <? ramp_up p)%Z = false /\ ramp_period p m = false.
Proof.
  intros Hm Hc. apply cleaning_due_spec in Hc. destruct Hc as [Hmod Hge].
  split; [apply Z.ltb_ge; lia|].
  unfold ramp_period. apply andb_false_iff.
  destruct (Z.ltb_spec m (cleaning_frequency p)) as [Hlt|_]; [|now right].
  exfalso. rewrite Z.mod_small in Hmod by lia. lia.
Qed.

(** C9 (as amended).  In every month of a run the test of line 120 is
    the test of the cleaning branch, and whenever it holds the first
    two branches of the policy do not match: the hull cleaning charge
    is [cleaning_cost] exactly in the months where the cleaning branch
    fires, and 0 in all others.  So a nonzero charge comes with a
    saving percentage of [total_saving_pct * post_cleaning_saving_pct]
    (rounded to two decimals in the row), and the cleaning branch
    comes with a charge of [cleaning_cost]. *)
Theorem cleaning_charge_with_cleaning_branch
  (p : Inputs) (m : Z) (s s' : State) :
  month_step p m s s' ->
  let due := (m mod cleaning_frequency p = 0)%Z /\ (m >= ramp_up p)%Z in
  let fires :=
    ~ (m < ramp_up p)%Z /\ ~ (ramp_up p < m < cleaning_frequency p)%Z
    /\ due in
  let peak := total_saving_pct p * post_cleaning_saving_pct p in
  (due <-> fires)
  /\ (fires ->
      hull_cleaning s' = Some (cleaning_cost p)
      /\ saving_pct s' = peak /\ last_saving_pct s' = peak)
  /\ (~ fires -> hull_cleaning s' = Some 0)
  /\ (forall hc, hull_cleaning s' = Some hc -> ~ hc == 0 ->
                 fires /\ saving_pct s' = peak)
  /\ (exists r, data s' = data s ++ [r]
                /\ (Hull_Cleaning_Cost r <> 0%Z ->
                    fires /\ Savings_in_Fuel r = Py.round2 peak)).
Proof.
  intros Hstep due fires peak.
  apply month_step_inv in Hstep. destruct Hstep as (Hm & HF & _ & ->).
  assert (Hdue : cleaning_due p m = true <-> due)
    by apply cleaning_due_spec.
  assert (Hfires : due <-> fires).
  { split; [|intros (_ & _ & H); exact H].
    intros Hd. pose proof Hd as Hc. apply Hdue in Hc.
    destruct (cleaning_due_late p m Hm Hc) as [H1 H2].
    apply Z.ltb_ge in H1. unfold ramp_period in H2.
    apply andb_false_iff in H2. rewrite Z.gtb_ltb, !Z.ltb_ge in H2.
    repeat split; try lia. apply Hd. }
  assert (Hpeak : cleaning_due p m = true ->
                  saving_pct (step p m s) = peak
                  /\ last_saving_pct (step p m s) = peak).
  { intros Hc. rewrite step_saving_pct, step_last_saving_pct.
    destruct (cleaning_due_late p m Hm Hc) as [H1 H2].
    unfold policy. rewrite H1, H2, Hc. split; reflexivity. }
  assert (Hno : ~ fires -> cleaning_due p m = false).
  { intros Hn. destruct (cleaning_due p m) eqn:E; [|reflexivity].
    exfalso. apply Hn, Hfires. destruct Hdue as [Hd _]. exact (Hd eq_refl). }
  split; [exact Hfires|]. split; [|split; [|split]].
  - intros Hf. apply Hfires, Hdue in Hf.
    rewrite step_hull_cleaning. unfold hull_charge. rewrite Hf.
    split; [reflexivity|]. apply Hpeak. exact Hf.
  - intros Hn. rewrite step_hull_cleaning. unfold hull_charge.
    rewrite (Hno Hn). reflexivity.
  - intros hc Hhc Hnz. rewrite step_hull_cleaning in Hhc.
    unfold hull_charge in Hhc.
    destruct (cleaning_due p m) eqn:E.
    + split; [apply Hfires, Hdue; reflexivity|apply Hpeak; reflexivity].
    + exfalso. injection Hhc as <-. apply Hnz. reflexivity.
  - eexists. split; [apply step_appends|].
    cbn [row_of Hull_Cleaning_Cost Savings_in_Fuel].
    rewrite step_hull_cleaning. unfold hull_charge.
    destruct (cleaning_due p m) eqn:E.
    + intros _. split; [apply Hfires, Hdue; reflexivity|].
      f_equal. apply Hpeak. reflexivity.
    + cbn [bound]. intros Hnz. exfalso. apply Hnz. reflexivity.
Qed.

Lemma cleaning_charge_with_cleaning_branch_witness :
  hull_cleaning (scenario_after 9) = Some (cleaning_cost scenario)
  /\ saving_pct (scenario_after 9)
     = total_saving_pct scenario * post_cleaning_saving_pct scenario
  /\ hull_cleaning (scenario_after 12) = Some 0
  /\ exists r, data (scenario_after 9) = data (scenario_after 8) ++ [r]
               /\ Savings_in_Fuel r
                  = Py.round2 (total_saving_pct scenario
                               * post_cleaning_saving_pct scenario).
Proof.
  assert (H9 : month_step scenario 9 (scenario_after 8) (scenario_after 9)).
  { split; [split; closed|]. split; vm_compute; reflexivity. }
  destruct (cleaning_charge_with_cleaning_branch scenario 9 _ _ H9)
    as (Hiff & Hf & _ & Hhc & (r & Hr & Hrow)).
  destruct (cleaning_charge_with_cleaning_branch scenario 12 _ _
              scenario_month_12) as (_ & _ & Hn & _).
  assert (Hdue : (9 mod cleaning_frequency scenario = 0)%Z
                 /\ (9 >= ramp_up scenario)%Z) by (split; closed).
  split; [apply Hf, Hiff, Hdue|].
  split; [apply (Hhc 15000); [vm_compute; reflexivity|closed]|].
  split.
  - apply Hn. intros (_ & _ & H & _). vm_compute in H. discriminate H.
  - exists r. split; [exact Hr|]. apply Hrow.
    assert (E : Hull_Cleaning_Cost r = 15000%Z).
    { assert (Hl : last (data (scenario_after 9)) r = r)
        by (rewrite Hr; apply last_last).
      rewrite <- Hl. vm_compute. reflexivity. }
    rewrite E. discriminate.
Defined.

(** C9, as stated, fails in its converse: without deterioration the
    saving percentage of month 10 still equals
    [total_saving_pct * post_cleaning_saving_pct], in the store and in
    the row, while no cleaning is charged in that month. *)
Lemma peak_saving_without_cleaning_charge :
  let s := final_store (after_months no_deterioration 9) in
  let s' := final_store (after_months no_deterioration 10) in
  month_step no_deterioration 10 s s'
  /\ saving_pct s'
     == total_saving_pct no_deterioration
        * post_cleaning_saving_pct no_deterioration
  /\ hull_cleaning s' = Some 0
  /\ cleaning_due no_deterioration 10 = false
  /\ exists r, nth_error (data s') 9 = Some r
               /\ Month r = 10%Z
               /\ Hull_Cleaning_Cost r = 0%Z
               /\ Savings_in_Fuel r
                  == total_saving_pct no_deterioration
                     * post_cleaning_saving_pct no_deterioration.
Proof.
  intros s s'. split.
  { split; [split; closed|]. split; vm_compute; reflexivity. }
  split; [closed|]. split; [vm_compute; reflexivity|]. split; [closed|].
  eexists. split; [vm_compute; reflexivity|].
  split; [reflexivity|]. split; [reflexivity|closed].
Qed.

(** * Further properties of the month loop *)

(** ** The saving percentage between cleanings (lines 104-113) *)

Lemma max0_proper (x y : Q) : x == y -> Py.max0 x == Py.max0 y.
Proof.
  intros E. unfold Py.max0.
  destruct (Py.ltb 0 x) eqn:Hx; destruct (Py.ltb 0 y) eqn:Hy;
    try apply ltb_lt in Hx; try apply ltb_lt in Hy;
    try apply ltb_ge in Hx; try apply ltb_ge in Hy; lra.
Qed.

(** Two deteriorations in a row are one deterioration by the sum. *)
Lemma max0_decay (x d : Q) :
  0 <= d -> Py.max0 (Py.max0 x - d) == Py.max0 (x - d).
Proof.
  intros Hd. unfold Py.max0 at 2.
  destruct (Py.ltb 0 x) eqn:Hx; [reflexivity|].
  apply ltb_ge in Hx. unfold Py.max0.
  destruct (Py.ltb 0 (0 - d)) eqn:H1; destruct (Py.ltb 0 (x - d)) eqn:H2;
    try apply ltb_lt in H1; try apply ltb_lt in H2;
    try apply ltb_ge in H1; try apply ltb_ge in H2; lra.
Qed.

(** The store before the last month of a finished prefix of the run. *)
Lemma after_months_pred (p : Inputs) (n : Z) (s' : State) :
  (1 <= n)%Z -> after_months p n = Ok tt s' ->
  exists s, after_months p (n - 1) = Ok tt s /\ s' = step p n s.
Proof.
  intros Hn Hs'. rewrite after_months_succ in Hs' by lia.
  destruct (after_months p (n - 1)) as [[] s|e s] eqn:E.
  - exists s. split; [reflexivity|].
    apply iteration_inv in Hs'. apply Hs'.
  - exfalso. inversion Hs'.
Qed.

Section Decay.

Variable p : Inputs.
Hypothesis HF : (1 <= cleaning_frequency p)%Z.
Hypothesis HD : 0 <= monthly_deterioration_input p.

Let peak : Q := total_saving_pct p * post_cleaning_saving_pct p.
Let drop : Q := monthly_deterioration p * 100.

Lemma drop_nonneg : 0 <= drop.
Proof. unfold drop, monthly_deterioration. qlra. Qed.

(** A month strictly between a cleaning month and the next one takes
    the deterioration branch. *)
Lemma between_cleanings (c j : Z) :
  (1 <= c)%Z -> cleaning_due p c = true ->
  (0 < j < cleaning_frequency p)%Z ->
  (c + j <? ramp_up p)%Z = false
  /\ ramp_period p (c + j) = false
  /\ cleaning_due p (c + j) = false.
Proof.
  intros Hc Hdue Hj. apply cleaning_due_spec in Hdue.
  destruct Hdue as [Hmod Hge].
  assert (Hlow : (cleaning_frequency p <= c)%Z).
  { destruct (Z.lt_ge_cases c (cleaning_frequency p)) as [Hlt|?];
      [|assumption].
    rewrite Z.mod_small in Hmod by lia. lia. }
  split; [apply Z.ltb_ge; lia|]. split.
  - unfold ramp_period. apply andb_false_iff. right. apply Z.ltb_ge. lia.
  - unfold cleaning_due. apply andb_false_iff. left. apply Z.eqb_neq.
    rewrite Z.add_mod by lia. rewrite Hmod, Z.add_0_l.
    rewrite Z.mod_mod by lia. rewrite Z.mod_small by lia. lia.
Qed.

(** The store after a cleaning month. *)
Lemma cleaning_month_store (c : Z) (s : State) :
  (1 <= c)%Z -> cleaning_due p c = true -> after_months p c = Ok tt s ->
  saving_pct s = peak /\ last_saving_pct s = peak.
Proof.
  intros Hc Hdue Hs.
  destruct (after_months_pred p c s Hc Hs) as (s0 & _ & ->).
  rewrite step_saving_pct, step_last_saving_pct.
  destruct (cleaning_due_late p c Hc Hdue) as [H1 H2].
  unfold policy. rewrite H1, H2, Hdue. split; reflexivity.
Qed.

(** One more month of deterioration. *)
Lemma decay_month (c j : Z) (s s' : State) (x : Q) :
  (1 <= c)%Z -> cleaning_due p c = true ->
  (0 < j < cleaning_frequency p)%Z ->
  last_saving_pct s == x -> s' = step p (c + j) s ->
  saving_pct s' == Py.max0 (x - drop)
  /\ last_saving_pct s' == Py.max0 (x - drop).
Proof.
  intros Hc Hdue Hj Hx ->.
  rewrite step_saving_pct, step_last_saving_pct.
  destruct (between_cleanings c j Hc Hdue Hj) as (H1 & H2 & H3).
  unfold policy. rewrite H1, H2, H3. cbn [fst snd]. fold drop.
  split; apply max0_proper; rewrite Hx; reflexivity.
Qed.

Lemma decay_closed_form (c : Z) :
  (1 <= c)%Z -> cleaning_due p c = true ->
  forall j, (0 <= j)%Z -> (j + 1 < cleaning_frequency p)%Z ->
  forall s, after_months p (c + (j + 1)) = Ok tt s ->
  saving_pct s == Py.max0 (peak - inject_Z (j + 1) * drop)
  /\ last_saving_pct s == Py.max0 (peak - inject_Z (j + 1) * drop).
Proof.
  intros Hc Hdue j Hj. pattern j. apply natlike_ind; [| |exact Hj].
  - intros H1 s Hs. change (0 + 1)%Z with 1%Z in *.
    destruct (after_months_pred p (c + 1) s ltac:(lia) Hs) as (s0 & Hs0 & E).
    replace (c + 1 - 1)%Z with c in Hs0 by lia.
    destruct (cleaning_month_store c s0 Hc Hdue Hs0) as [_ Hlast].
    destruct (decay_month c 1 s0 s peak Hc Hdue ltac:(lia)
                ltac:(rewrite Hlast; reflexivity) E) as [A B].
    rewrite A, B. split; apply max0_proper; change (inject_Z 1) with 1; ring.
  - clear j Hj. intros j Hj IH Hlt s Hs. unfold Z.succ in *.
    destruct (after_months_pred p (c + (j + 1 + 1)) s ltac:(lia) Hs)
      as (s0 & Hs0 & E).
    replace (c + (j + 1 + 1) - 1)%Z with (c + (j + 1))%Z in Hs0 by lia.
    destruct (IH ltac:(lia) s0 Hs0) as [_ Hlast].
    destruct (decay_month c (j + 1 + 1) s0 s _ Hc Hdue ltac:(lia) Hlast E)
      as [A B].
    rewrite A, B.
    pose proof (max0_decay (peak - inject_Z (j + 1) * drop) drop
                  drop_nonneg) as Hm.
    assert (Hr : peak - inject_Z (j + 1) * drop - drop
                 == peak - inject_Z (j + 1 + 1) * drop).
    { rewrite (inject_Z_plus (j + 1) 1). change (inject_Z 1) with 1. ring. }
    split; rewrite Hm; apply max0_proper; exact Hr.
Qed.

End Decay.

(** X1.  After a cleaning month [c] of a run (cleaning frequency of 1 or
    more, non-negative monthly deterioration), the saving percentage
    and [last_saving_pct] are first the cleaning share of the total,
    and [k] months later, for every [k] from 1 up to the month before
    the next cleaning, [max(0, peak - k * deterioration * 100)]: the
    monthly deteriorations add up, and the saving is never carried
    below 0. *)
Theorem saving_decays_linearly_after_cleaning
  (p : Inputs) (c k : Z) (s : State) :
  (1 <= cleaning_frequency p)%Z -> 0 <= monthly_deterioration_input p ->
  (1 <= c)%Z ->
  ((c mod cleaning_frequency p = 0)%Z /\ (c >= ramp_up p)%Z) ->
  (0 <= k < cleaning_frequency p)%Z ->
  after_months p (c + k) = Ok tt s ->
  let peak := total_saving_pct p * post_cleaning_saving_pct p in
  let level_k :=
    if (k =? 0)%Z then peak
    else Py.max0 (peak - inject_Z k * (monthly_deterioration p * 100)) in
  saving_pct s == level_k /\ last_saving_pct s == level_k.
Proof.
  intros HF HD Hc Hdue Hk Hs peak level_k. subst level_k.
  apply cleaning_due_spec in Hdue.
  destruct (Z.eqb_spec k 0) as [->|Hne].
  - rewrite Z.add_0_r in Hs.
    destruct (cleaning_month_store p c s Hc Hdue Hs) as [A B].
    rewrite A, B. split; reflexivity.
  - replace k with (k - 1 + 1)%Z in * by lia.
    apply (decay_closed_form p HF HD c Hc Hdue (k - 1)%Z); try lia.
    exact Hs.
Qed.

Lemma saving_decays_linearly_after_cleaning_witness :
  saving_pct (scenario_after 12) == 34 # 10
  /\ last_saving_pct (scenario_after 12) == 34 # 10.
Proof.
  pose proof (saving_decays_linearly_after_cleaning
                scenario 9 3 (scenario_after 12)) as H.
  cbv zeta in H.
  assert (E : Py.max0 (total_saving_pct scenario
                       * post_cleaning_saving_pct scenario
                       - inject_Z 3 * (monthly_deterioration scenario * 100))
              == 34 # 10) by closed.
  change (3 =? 0)%Z with false in H. cbv iota in H. rewrite E in H.
  apply H;
    [closed|closed|closed|split; closed|split; closed
    |vm_compute; reflexivity].
Defined.

(** ** Before the first cleaning *)

Lemma max0_nonpos (x : Q) : x <= 0 -> Py.max0 x = 0.
Proof.
  intros Hx. unfold Py.max0. destruct (Py.ltb 0 x) eqn:E; [|reflexivity].
  apply ltb_lt in E. exfalso. lra.
Qed.



(** ** What the cumulative total cost is made of (lines 119-123) *)

(** The number of months from 1 to [n] in which the cleaning test
    holds. *)
Definition cleanings (p : Inputs) (n : Z) : Z :=
  Z.of_nat (List.length (filter (cleaning_due p) (Py.range 1 (n + 1)))).

Lemma cleanings_step (p : Inputs) (m : Z) :
  (1 <= m)%Z ->
  cleanings p m
  = (cleanings p (m - 1) + (if cleaning_due p m then 1 else 0))%Z.
Proof.
  intros Hm. unfold cleanings.
  replace (m - 1 + 1)%Z with m by lia.
  rewrite (range_snoc 1 m) by lia. rewrite filter_app, length_app.
  cbn [filter]. destruct (cleaning_due p m); cbn [List.length]; lia.
Qed.

(** X3.  From month 1 on, the cumulative total cost is the cumulative
    subscription cost, plus the cleaning cost once per cleaning month
    so far, plus the one-time cost and the crew training cost of
    month 1. *)
Theorem total_cost_breakdown (p : Inputs) (n : Z) (s : State) :
  (1 <= n)%Z -> after_months p n = Ok tt s ->
  cumulative_total_cost s
  == cumulative_sub_cost s
     + inject_Z (cleanings p n) * cleaning_cost p
     + (one_time_cost p + crew_cost p).
Proof.
  intros Hn Hs.
  enough (H : cumulative_total_cost s
              == cumulative_sub_cost s
                 + inject_Z (cleanings p n) * cleaning_cost p
                 + (if (1 <=? n)%Z then one_time_cost p + crew_cost p
                    else 0)).
  { destruct (Z.leb_spec 1 n) as [_|?]; [exact H|lia]. }
  assert (H0 : (0 <= n)%Z) by lia. clear Hn. revert n s H0 Hs.
  apply (months_ind p (fun n s =>
    cumulative_total_cost s
    == cumulative_sub_cost s
       + inject_Z (cleanings p n) * cleaning_cost p
       + (if (1 <=? n)%Z then one_time_cost p + crew_cost p else 0))).
  - cbn. ring.
  - intros m s0 s1 Hm _ IH Hs1.
    apply iteration_inv in Hs1. destruct Hs1 as (_ & _ & ->).
    rewrite step_cumulative_total_cost, step_cumulative_sub_cost, IH.
    rewrite (cleanings_step p m Hm), inject_Z_plus.
    unfold hull_charge, other_charge.
    destruct (Z.leb_spec 1 m) as [_|?]; [|lia].
    destruct (Z.eqb_spec m 1) as [->|Hne].
    + change (1 <=? 1 - 1)%Z with false.
      destruct (cleaning_due p 1);
        [change (inject_Z 1) with 1|change (inject_Z 0) with 0]; ring.
    + destruct (Z.leb_spec 1 (m - 1)) as [_|?]; [|lia].
      destruct (cleaning_due p m);
        [change (inject_Z 1) with 1|change (inject_Z 0) with 0]; ring.
Qed.

Lemma total_cost_breakdown_witness :
  cumulative_total_cost (scenario_after 12)
  == cumulative_sub_cost (scenario_after 12)
     + inject_Z (cleanings scenario 12) * cleaning_cost scenario
     + (one_time_cost scenario + crew_cost scenario).
Proof.
  apply (total_cost_breakdown scenario 12); [closed|].
  vm_compute. reflexivity.
Defined.

(** ** The rounded columns of a row (lines 127-139) *)

Lemma round_error (x : Q) :
  - (1 # 2) <= inject_Z (Py.round x) - x <= 1 # 2.
Proof.
  destruct (floor_bounds x) as [Hlo Hhi].
  destruct (round_cases x) as [(R & H & _)|(R & H & _)]; rewrite R.
  - split; lra.
  - rewrite inject_Z_plus. change (inject_Z 1) with 1. split; lra.
Qed.

(** X4.  Each amount of a row is rounded on its own, so the columns
    need not add up to the unit: in every row of a finished run the
    Profit differs from Cumulative Savings minus Cumulative Total Cost
    by at most 1. *)
Theorem profit_column_within_one_of_difference
  (p : Inputs) (st : State) (r : Row) :
  run p = Ok tt st -> In r (data st) ->
  (-1 <= Profit r - (Cumulative_Savings r - Cumulative_Total_Cost r) <= 1)%Z.
Proof.
  intros Hrun Hin.
  apply In_nth_error in Hin. destruct Hin as [i Hi].
  assert (Hlen : (i < List.length (data st))%nat)
    by (apply nth_error_Some; congruence).
  assert (H0 : (0 <= months p)%Z).
  { destruct (Z.le_gt_cases 0 (months p)) as [?|Hneg]; [assumption|].
    exfalso. unfold run, after_months in Hrun.
    rewrite range_nil in Hrun by lia. cbn in Hrun.
    apply Ok_inj in Hrun. destruct Hrun as [_ <-].
    cbn in Hlen. lia. }
  pose proof (after_months_length p (months p) st H0 Hrun) as Hn.
  destruct (month_step_of_run p st (Z.of_nat i + 1) Hrun ltac:(lia))
    as (s & s' & Hstep & Hrow).
  replace (Z.to_nat (Z.of_nat i + 1 - 1)) with i in Hrow by lia.
  rewrite Hi in Hrow. injection Hrow as ->.
  apply month_step_inv in Hstep. destruct Hstep as (_ & _ & _ & ->).
  cbn [row_of Profit Cumulative_Savings Cumulative_Total_Cost].
  rewrite step_profit. cbn [bound].
  set (a := cumulative_savings (step p (Z.of_nat i + 1) s)).
  set (b := cumulative_total_cost (step p (Z.of_nat i + 1) s)).
  pose proof (round_error a) as Ha. pose proof (round_error b) as Hb.
  pose proof (round_error (a - b)) as Hab.
  set (d := (Py.round (a - b) - (Py.round a - Py.round b))%Z).
  assert (Hd : inject_Z d
               == inject_Z (Py.round (a - b))
                  - (inject_Z (Py.round a) - inject_Z (Py.round b))).
  { unfold d, Z.sub. rewrite !inject_Z_plus, !inject_Z_opp.
    rewrite inject_Z_plus, inject_Z_opp. ring. }
  assert (Hlt : inject_Z (-2) < inject_Z d /\ inject_Z d < inject_Z 2).
  { change (inject_Z (-2)) with (-2 # 1). change (inject_Z 2) with 2.
    rewrite Hd. split; lra. }
  destruct Hlt as [H1 H2]. rewrite <- Zlt_Qlt in H1, H2. lia.
Qed.

Lemma profit_column_within_one_of_difference_witness :
  exists r,
    nth_error (data (scenario_after 12)) 11 = Some r
    /\ (-1 <= Profit r - (Cumulative_Savings r - Cumulative_Total_Cost r)
         <= 1)%Z.
Proof.
  destruct (nth_error (data (scenario_after 12)) 11) as [r|] eqn:E;
    [|vm_compute in E; discriminate E].
  exists r. split; [reflexivity|].
  apply (profit_column_within_one_of_difference
           scenario (scenario_after 12) r scenario_run).
  apply nth_error_In with (n := 11%nat). exact E.
Defined.

(** ** The range of the return on investment (lines 124-125) *)

Section Return.

Variable p : Inputs.
Hypothesis Hall : all_nonneg p.

Lemma savings_never_negative (m : Z) (s s' : State) :
  month_step p m s s' ->
  (0 <= fuel_cost_current s /\ 0 <= cumulative_savings s)
  /\ (0 <= fuel_cost_current s' /\ 0 <= cumulative_savings s').
Proof.
  destruct Hall as (_ & Hsav & _ & Hr & Hsh).
  apply (month_step_ind p (fun _ s =>
           0 <= fuel_cost_current s /\ 0 <= cumulative_savings s)).
  - cbn [initial_state fuel_cost_current cumulative_savings].
    split; [exact (monthly_fuel_cost_base_nonneg p Hall)|lra].
  - intros k s0 s1 _ _ [IHf IHc] Hs1.
    apply iteration_inv in Hs1. destruct Hs1 as (_ & _ & ->).
    pose proof (level_nonneg p Hr k _ IHf) as Hf.
    pose proof (policy_saving_nonneg p Hsav k (last_saving_pct s0) Hsh)
      as Hp.
    rewrite step_cumulative_savings, step_saving_pct,
      step_fuel_cost_current.
    split; [exact Hf|].
    assert (0 <= level p k (fuel_cost_current s0)
                 * (fst (policy p k (last_saving_pct s0)) / 100))
      by qnra.
    lra.
Qed.

End Return.

(** X5.  With all parameters non-negative, the return on investment of
    every month is at least -1 (-100%); it is exactly -1 while nothing
    has been saved or nothing has been spent, and it is positive
    exactly when the cumulative savings exceed a positive cumulative
    total cost. *)
Theorem roi_range (p : Inputs) (m : Z) (s s' : State) :
  all_nonneg p -> month_step p m s s' ->
  exists r,
    roi s' = Some r
    /\ - (1) <= r
    /\ (r == - (1) <->
        cumulative_savings s' == 0 \/ cumulative_total_cost s' == 0)
    /\ (0 < r <->
        0 < cumulative_total_cost s'
        /\ cumulative_total_cost s' < cumulative_savings s').
Proof.
  intros Hall Hstep.
  destruct (savings_never_negative p Hall m s s' Hstep) as (_ & _ & Hcs).
  destruct Hall as (_ & _ & Hc & Hr & _).
  destruct (costs_ok_month p Hc Hr m s s' Hstep) as (_ & _ & _ & Hct).
  apply month_step_inv in Hstep. destruct Hstep as (_ & _ & _ & E).
  rewrite E. rewrite step_roi. rewrite <- E.
  set (a := cumulative_savings s') in *.
  set (b := cumulative_total_cost s') in *.
  eexists. split; [reflexivity|].
  destruct (Py.ltb 0 b) eqn:Hb.
  - apply ltb_lt in Hb.
    assert (Hq : (a - b) / b * b == a - b) by (field; lra).
    set (q := (a - b) / b) in *.
    split; [nra|]. split; split.
    + intros Hm. left. nra.
    + intros [Ha|Hz]; [nra|lra].
    + intros Hpos. split; [exact Hb|nra].
    + intros [_ Hlt]. nra.
  - apply ltb_ge in Hb.
    split; [lra|]. split; split.
    + intros _. right. lra.
    + intros _. reflexivity.
    + intros Hpos. exfalso. revert Hpos. apply Qle_not_lt. discriminate.
    + intros [Hpos _]. exfalso. lra.
Qed.

Lemma roi_range_witness :
  exists r,
    roi (scenario_after 12) = Some r
    /\ - (1) <= r
    /\ (r == - (1) <->
        cumulative_savings (scenario_after 12) == 0
        \/ cumulative_total_cost (scenario_after 12) == 0)
    /\ (0 < r <->
        0 < cumulative_total_cost (scenario_after 12)
        /\ cumulative_total_cost (scenario_after 12)
           < cumulative_savings (scenario_after 12)).
Proof.
  apply (roi_range scenario 12 (scenario_after 11)).
  - exact all_nonneg_scenario.
  - exact scenario_month_12.
Defined.

(** ** Yearly totals *)

Section Spans.

Variable p : Inputs.
Variable acc : State -> Q.
Variable inc : Z -> Q.

(** What one month adds to the accumulator. *)
Hypothesis Hmonth :
  forall n s s', (1 <= n)%Z ->
    after_months p (n - 1) = Ok tt s -> after_months p n = Ok tt s' ->
    acc s' == acc s + inc n.

(** Months that each add the same amount add up to a multiple of it. *)
Lemma span_sum (a : Z) (u : Q) (s0 : State) :
  (0 <= a)%Z -> after_months p a = Ok tt s0 ->
  forall j, (0 <= j)%Z ->
  (forall i, (a < i <= a + j)%Z -> inc i == u) ->
  forall sj, after_months p (a + j) = Ok tt sj ->
  acc sj == acc s0 + inject_Z j * u.
Proof.
  intros Ha Hs0 j Hj. pattern j. apply natlike_ind; [| |exact Hj].
  - intros _ sj Hsj. rewrite Z.add_0_r, Hs0 in Hsj.
    apply Ok_inj in Hsj. destruct Hsj as [_ <-].
    change (inject_Z 0) with 0. ring.
  - clear j Hj. intros j Hj IH Hinc sj Hsj. unfold Z.succ in *.
    destruct (after_months_pred p (a + (j + 1)) sj ltac:(lia) Hsj)
      as (s1 & Hs1 & _).
    replace (a + (j + 1) - 1)%Z with (a + j)%Z in Hs1 by lia.
    assert (Hstep : acc sj == acc s1 + inc (a + (j + 1))).
    { apply Hmonth; [lia| |exact Hsj].
      replace (a + (j + 1) - 1)%Z with (a + j)%Z by lia. exact Hs1. }
    rewrite Hstep, (IH ltac:(intros i Hi; apply Hinc; lia) s1 Hs1).
    rewrite (Hinc (a + (j + 1))%Z) by lia.
    rewrite inject_Z_plus. change (inject_Z 1) with 1. ring.
Qed.

End Spans.

Lemma same_contract_year (k i : Z) :
  (0 <= k)%Z -> (12 * k < i <= 12 * k + 12)%Z -> years_before i = k.
Proof.
  intros Hk Hi. unfold years_before.
  replace (Z.max 0 (i - 1)) with (i - 1)%Z by lia.
  Z.div_mod_to_equations. lia.
Qed.

(** X6.  The fuel mass added to [total_fuel_mt] over contract year
    [k + 1] (months [12k + 1] to [12k + 12]) is
    [daily_fuel * op_days * (1 + yearly_sub_increase)^k]: the physical
    yearly consumption in the first year, whatever the fuel price, and
    scaled by the cost escalation afterwards. *)
Theorem fuel_mass_of_contract_year (p : Inputs) (k : Z) (s0 s1 : State) :
  (0 <= k)%Z ->
  after_months p (12 * k) = Ok tt s0 ->
  after_months p (12 * k + 12) = Ok tt s1 ->
  total_fuel_mt s1
  == total_fuel_mt s0
     + daily_fuel p * inject_Z (op_days p)
       * (1 + yearly_sub_increase p) ^ k.
Proof.
  intros Hk Hs0 Hs1.
  set (u := daily_fuel p * inject_Z (op_days p) / 12
            * (1 + yearly_sub_increase p) ^ k).
  assert (H : total_fuel_mt s1 == total_fuel_mt s0 + inject_Z 12 * u).
  { apply (span_sum p total_fuel_mt
             (fun n => daily_fuel p * inject_Z (op_days p) / 12
                       * (1 + yearly_sub_increase p) ^ years_before n))
      with (a := (12 * k)%Z); try assumption; try lia.
    - intros n s s' Hn Hs Hs'.
      destruct (after_months_pred p n s' Hn Hs') as (s2 & Hs2 & E).
      rewrite Hs in Hs2. apply Ok_inj in Hs2. destruct Hs2 as [_ <-].
      pose proof (levels_closed p n s' ltac:(lia) Hs') as [Hf _].
      assert (Hp : ~ fuel_price p == 0).
      { rewrite after_months_succ in Hs' by lia. rewrite Hs in Hs'.
        apply iteration_inv in Hs'. apply Hs'. }
      rewrite E at 1. rewrite step_total_fuel_mt. rewrite <- E.
      rewrite Hf. unfold monthly_fuel_cost_base. field. exact Hp.
    - intros i Hi. cbv beta. rewrite (same_contract_year k i Hk Hi).
      reflexivity. }
  rewrite H. unfold u. change (inject_Z 12) with 12. field.
Qed.

Lemma fuel_mass_of_contract_year_witness :
  total_fuel_mt (defaults_after 24)
  == total_fuel_mt (defaults_after 12)
     + daily_fuel defaults * inject_Z (op_days defaults)
       * (1 + yearly_sub_increase defaults) ^ 1.
Proof.
  apply (fuel_mass_of_contract_year defaults 1); [closed| |].
  - vm_compute. reflexivity.
  - vm_compute. reflexivity.
Defined.

(** X7.  The subscription cost added to [cumulative_sub_cost] over
    contract year [k + 1] is twelve times the sum of the five
    subscription costs, times [(1 + yearly_sub_increase)^k]. *)
Theorem subscription_of_contract_year
  (p : Inputs) (k : Z) (s0 s1 : State) :
  (0 <= k)%Z ->
  after_months p (12 * k) = Ok tt s0 ->
  after_months p (12 * k + 12) = Ok tt s1 ->
  cumulative_sub_cost s1
  == cumulative_sub_cost s0
     + 12 * initial_sub_cost p * (1 + yearly_sub_increase p) ^ k.
Proof.
  intros Hk Hs0 Hs1.
  set (u := initial_sub_cost p * (1 + yearly_sub_increase p) ^ k).
  assert (H : cumulative_sub_cost s1
              == cumulative_sub_cost s0 + inject_Z 12 * u).
  { apply (span_sum p cumulative_sub_cost
             (fun n => initial_sub_cost p
                       * (1 + yearly_sub_increase p) ^ years_before n))
      with (a := (12 * k)%Z); try assumption; try lia.
    - intros n s s' Hn Hs Hs'.
      destruct (after_months_pred p n s' Hn Hs') as (s2 & Hs2 & E).
      rewrite Hs in Hs2. apply Ok_inj in Hs2. destruct Hs2 as [_ <-].
      pose proof (levels_closed p n s' ltac:(lia) Hs') as [_ Hsc].
      rewrite E at 1. rewrite step_cumulative_sub_cost. rewrite <- E.
      rewrite Hsc. reflexivity.
    - intros i Hi. cbv beta. rewrite (same_contract_year k i Hk Hi).
      reflexivity. }
  rewrite H. unfold u. change (inject_Z 12) with 12. ring.
Qed.

Lemma subscription_of_contract_year_witness :
  cumulative_sub_cost (defaults_after 24)
  == cumulative_sub_cost (defaults_after 12)
     + 12 * initial_sub_cost defaults
       * (1 + yearly_sub_increase defaults) ^ 1.
Proof.
  apply (subscription_of_contract_year defaults 1); [closed| |].
  - vm_compute. reflexivity.
  - vm_compute. reflexivity.
Defined.

(** * Key metrics (lines 141-156) *)

From Stdlib Require Import Ascii.

Module Kpi.

(** [f"{x:,.0f}"]: the nearest integer, ties to even, the sign of [x]
    kept, a comma before every group of three digits. *)
Fixpoint commas (ds : list Ascii.ascii) : list Ascii.ascii :=
  match ds with
  | [] => []
  | d :: ds' =>
      d :: (if ((0 <? List.length ds') && (List.length ds' mod 3 =? 0))%nat
            then ","%char :: commas ds'
            else commas ds')
  end.

Definition format_comma_0f (x : Q) : string :=
  ((if Py.ltb x 0 then "-" else "")
     ++ string_of_list_ascii
          (commas (list_ascii_of_string
                     (Py.digits (Z.abs (Py.round x))))))%string.

(** Line 146. *)
Definition fmt (x : Q) : string :=
  if Py.ltb 1000000 x then (Py.format_1f (x / 1000000) ++ "M")%string
  else if Py.ltb 1000 x then (Py.format_1f (x / 1000) ++ "k")%string
  else format_comma_0f x.

(** [df[col].iloc[-1]]: the value of the last row; [None] stands for
    the [KeyError] that an empty table raises. *)
Definition iloc_last {A} (col : Row -> A) (rows : list Row) : option A :=
  match rev rows with
  | r :: _ => Some (col r)
  | [] => None
  end.

(** [df[col].sum()] on a numeric column. *)
Definition column_sum (col : Row -> Z) (rows : list Row) : Z :=
  fold_left Z.add (map col rows) 0%Z.

(** Division of a table value by a float: by 0 it gives [inf] or
    [nan] with a warning, which the rationals do not have; [None]
    stands for those. *)
Definition np_div (x y : Q) : option Q :=
  if Qeq_bool y 0 then None else Some (x / y).

(** The seven texts handed to [st.metric]. *)
Record Metrics : Type := mkMetrics {
  Fuel_Savings_MT : string;
  Cost_Savings : string;
  CO2_Reduction_MT : string;
  Profit_text : string;
  ROI_text : string;
  Total_Investment_Cost : string;
  Total_Fuel_Used_MT : string
}.

(** Lines 141-156, from the inputs and the store the loop ended
    with. *)
Definition key_metrics (p : Inputs) (st : State) : option Metrics :=
  match iloc_last Cumulative_Savings (data st) with
  | None => None
  | Some cs =>
    match np_div (inject_Z cs) (fuel_price p) with
    | None => None
    | Some fuel_savings_mt =>
      let co2_reduction := fuel_savings_mt * CO2_EMISSION_FACTOR in
      match iloc_last Profit (data st),
            iloc_last Cumulative_ROI (data st),
            iloc_last Cumulative_Total_Cost (data st) with
      | Some pr, Some roi_text, Some ctc =>
          Some {| Fuel_Savings_MT := fmt fuel_savings_mt;
                  Cost_Savings :=
                    fmt (inject_Z (column_sum Fuel_Cost_Savings (data st)));
                  CO2_Reduction_MT := fmt co2_reduction;
                  Profit_text := fmt (inject_Z pr);
                  ROI_text := roi_text;
                  Total_Investment_Cost := fmt (inject_Z ctc);
                  Total_Fuel_Used_MT := fmt (total_fuel_mt st) |}
      | _, _, _ => None
      end
    end
  end.

End Kpi.

Lemma iloc_last_snoc {A} (col : Row -> A) (rows : list Row) (r : Row) :
  Kpi.iloc_last col (rows ++ [r]) = Some (col r).
Proof. unfold Kpi.iloc_last. rewrite rev_app_distr. reflexivity. Qed.

Lemma column_sum_snoc (col : Row -> Z) (rows : list Row) (r : Row) :
  Kpi.column_sum col (rows ++ [r])
  = (Kpi.column_sum col rows + col r)%Z.
Proof.
  unfold Kpi.column_sum. rewrite map_app, fold_left_app. reflexivity.
Qed.

(** X8.  When the loop has finished a contract of one year or more,
    the key metrics are all defined: the table is not empty, and the
    fuel price by which the final cumulative savings are divided is
    the one the loop has already divided by every month, so it is not
    0.  The ROI metric is the ROI text of the last month's row. *)
Theorem key_metrics_defined (p : Inputs) (st : State) :
  (1 <= years p)%Z -> run p = Ok tt st ->
  ~ fuel_price p == 0
  /\ exists k r,
      Kpi.key_metrics p st = Some k
      /\ nth_error (data st) (Z.to_nat (months p - 1)) = Some r
      /\ Month r = months p
      /\ Kpi.ROI_text k = Cumulative_ROI r
      /\ Kpi.Profit_text k = Kpi.fmt (inject_Z (Profit r))
      /\ Kpi.Total_Investment_Cost k
         = Kpi.fmt (inject_Z (Cumulative_Total_Cost r))
      /\ Kpi.Fuel_Savings_MT k
         = Kpi.fmt (inject_Z (Cumulative_Savings r) / fuel_price p).
Proof.
  intros Hy Hrun.
  assert (Hn : (1 <= months p)%Z) by (unfold months; lia).
  destruct (month_step_of_run p st (months p) Hrun ltac:(lia))
    as (s & s' & Hstep & Hrow).
  pose proof Hstep as (_ & Hpre & Hit).
  assert (Hst : st = s').
  { unfold run in Hrun. rewrite after_months_succ in Hrun by lia.
    rewrite Hpre, Hit in Hrun. apply Ok_inj in Hrun.
    symmetry. apply Hrun. }
  apply month_step_inv in Hstep. destruct Hstep as (_ & _ & Hp & E).
  split; [exact Hp|].
  assert (Hdata : data st = data s ++ [row_of (months p) s']).
  { rewrite Hst, E. rewrite step_appends. rewrite <- E. reflexivity. }
  unfold Kpi.key_metrics. rewrite Hdata, !iloc_last_snoc.
  unfold Kpi.np_div.
  destruct (Qeq_bool (fuel_price p) 0) eqn:Hq;
    [apply Qeq_bool_iff in Hq; contradiction|].
  eexists. exists (row_of (months p) s').
  split; [reflexivity|]. rewrite <- Hdata.
  split; [exact Hrow|]. repeat split; reflexivity.
Qed.

Lemma key_metrics_defined_witness :
  ~ fuel_price scenario == 0
  /\ exists k r,
      Kpi.key_metrics scenario (scenario_after 12) = Some k
      /\ nth_error (data (scenario_after 12))
           (Z.to_nat (months scenario - 1)) = Some r
      /\ Month r = months scenario
      /\ Kpi.ROI_text k = Cumulative_ROI r
      /\ Kpi.Profit_text k = Kpi.fmt (inject_Z (Profit r))
      /\ Kpi.Total_Investment_Cost k
         = Kpi.fmt (inject_Z (Cumulative_Total_Cost r))
      /\ Kpi.Fuel_Savings_MT k
         = Kpi.fmt (inject_Z (Cumulative_Savings r) / fuel_price scenario).
Proof.
  apply (key_metrics_defined scenario (scenario_after 12));
    [closed|exact scenario_run].
Defined.

(** X9.  The Cost Savings metric adds up the monthly savings as the
    rows show them, each rounded on its own, while the last Cumulative
    Savings is the rounded running total: after [n] months the two
    differ by at most [(n + 1) / 2]. *)
Theorem cost_savings_metric_drift (p : Inputs) (n : Z) (s : State) (r : Row) :
  (1 <= n)%Z -> after_months p n = Ok tt s ->
  nth_error (data s) (Z.to_nat (n - 1)) = Some r ->
  (2 * Z.abs (Kpi.column_sum Fuel_Cost_Savings (data s)
              - Cumulative_Savings r) <= n + 1)%Z.
Proof.
  intros Hn Hs Hr.
  assert (Hinv : forall n s, (0 <= n)%Z -> after_months p n = Ok tt s ->
            - (inject_Z n / 2)
            <= inject_Z (Kpi.column_sum Fuel_Cost_Savings (data s))
               - cumulative_savings s
            <= inject_Z n / 2).
  { apply (months_ind p (fun n s =>
      - (inject_Z n / 2)
      <= inject_Z (Kpi.column_sum Fuel_Cost_Savings (data s))
         - cumulative_savings s
      <= inject_Z n / 2)).
    - cbn. split; discriminate.
    - intros m s0 s1 Hm _ IH Hs1.
      apply iteration_inv in Hs1. destruct Hs1 as (_ & _ & ->).
      rewrite step_data, column_sum_snoc. cbn [Fuel_Cost_Savings].
      rewrite step_cumulative_savings, inject_Z_plus.
      set (x := fuel_cost_current (step p m s0)
                * (saving_pct (step p m s0) / 100)).
      pose proof (round_error x) as He.
      assert (Hm' : inject_Z m == inject_Z (m - 1) + 1).
      { replace m with (m - 1 + 1)%Z at 1 by lia.
        rewrite inject_Z_plus. reflexivity. }
      rewrite Hm'. split; qlra. }
  specialize (Hinv n s ltac:(lia) Hs).
  destruct (after_months_pred p n s Hn Hs) as (s0 & _ & E).
  assert (Hrow : r = row_of n s).
  { assert (Hd : data s = data s0 ++ [row_of n s])
      by (rewrite E at 1; rewrite step_appends, <- E; reflexivity).
    pose proof (after_months_length p n s ltac:(lia) Hs) as Hlen.
    rewrite Hd, length_app in Hlen. cbn [List.length] in Hlen.
    rewrite Hd, nth_error_app2 in Hr by lia.
    replace (Z.to_nat (n - 1) - List.length (data s0))%nat with 0%nat
      in Hr by lia.
    cbn in Hr. congruence. }
  subst r. cbn [row_of Cumulative_Savings].
  pose proof (round_error (cumulative_savings s)) as He.
  set (a := Kpi.column_sum Fuel_Cost_Savings (data s)) in *.
  set (b := Py.round (cumulative_savings s)) in *.
  assert (Hq : - (inject_Z n + 1) <= 2 * (inject_Z a - inject_Z b)
               /\ 2 * (inject_Z a - inject_Z b) <= inject_Z n + 1)
    by (split; qlra).
  assert (Hz : (- (n + 1) <= 2 * (a - b) <= n + 1)%Z).
  { split; rewrite Zle_Qle; unfold Z.sub;
      rewrite ?inject_Z_opp, ?inject_Z_mult, ?inject_Z_plus,
        ?inject_Z_opp;
      change (inject_Z 2) with 2; change (inject_Z 1) with 1; lra. }
  lia.
Qed.

Lemma cost_savings_metric_drift_witness :
  exists r,
    nth_error (data (scenario_after 12)) 11 = Some r
    /\ (2 * Z.abs (Kpi.column_sum Fuel_Cost_Savings
                     (data (scenario_after 12))
                   - Cumulative_Savings r) <= 12 + 1)%Z.
Proof.
  destruct (nth_error (data (scenario_after 12)) 11) as [r|] eqn:E;
    [|vm_compute in E; discriminate E].
  exists r. split; [reflexivity|].
  apply (cost_savings_metric_drift scenario 12 (scenario_after 12) r);
    [closed|vm_compute; reflexivity|exact E].
Defined.



(** * Chart values and cell colours (lines 184 and 203-206) *)

From Stdlib Require Import DecimalPos DecimalN.

Module Style.

(** [s.lstrip(c)], [s.rstrip(c)] and [s.strip(c)] for a single
    character [c]. *)
Fixpoint lstrip (c : ascii) (s : string) : string :=
  match s with
  | EmptyString => EmptyString
  | String x t => if Ascii.eqb x c then lstrip c t else s
  end.

Fixpoint rstrip (c : ascii) (s : string) : string :=
  match s with
  | EmptyString => EmptyString
  | String x t =>
      match rstrip c t with
      | EmptyString => if Ascii.eqb x c then EmptyString
                       else String x EmptyString
      | t' => String x t'
      end
  end.

Definition strip (c : ascii) (s : string) : string := rstrip c (lstrip c s).

(** What [float(s)] makes of a text. *)
Inductive parsed : Type :=
| Value (q : Q)
| NotDecimal.

(** The text up to the first point, and the text after it if there is
    one. *)
Fixpoint split_point (s : string) : string * option string :=
  match s with
  | EmptyString => (EmptyString, None)
  | String x t =>
      if Ascii.eqb x "."%char then (EmptyString, Some t)
      else let (a, b) := split_point t in (String x a, b)
  end.

(** [float(s)] on plain decimal numerals: an optional sign, digits, and
    optionally a point and more digits, with a digit on at least one
    side.  [NotDecimal] is any other text: [float] then raises
    [ValueError], or reads one of the further forms it accepts
    (exponents, [inf], [nan], underscores, surrounding blanks), which
    the script never produces and which are not told apart here. *)
Definition float (s : string) : parsed :=
  let '(neg, body) :=
    match s with
    | String x t =>
        if Ascii.eqb x "-"%char then (true, t)
        else if Ascii.eqb x "+"%char then (false, t)
        else (false, s)
    | EmptyString => (false, s)
    end in
  let '(ip, fp) := split_point body in
  let fp := match fp with Some f => f | None => EmptyString end in
  match NilEmpty.uint_of_string ip, NilEmpty.uint_of_string fp with
  | Some a, Some b =>
      if ((String.length ip =? 0) && (String.length fp =? 0))%nat
      then NotDecimal
      else
        let v := inject_Z (Z.of_N (N.of_uint a))
                 + inject_Z (Z.of_N (N.of_uint b))
                   / inject_Z (10 ^ Z.of_nat (String.length fp)) in
        Value (if neg : bool then - v else v)
  | _, _ => NotDecimal
  end.

(** Line 184. *)
Definition roi_vals (rows : list Row) : list parsed :=
  map (fun r => float (strip "%"%char (Cumulative_ROI r))) rows.

(** Line 203. *)
Definition highlight_profit (val : Z) : string :=
  if (0 <? val)%Z then "color: green;"%string else "color: red;"%string.

(** Lines 204-206.  [None]: the text is no plain decimal numeral, so
    whether [float] raises (and the colour is the empty text) is not
    told by this model. *)
Definition highlight_roi (val : string) : option string :=
  match float (strip "%"%char val) with
  | Value v =>
      Some (if Py.ltb 0 v then "color: green;"%string
            else "color: red;"%string)
  | NotDecimal => None
  end.

End Style.

(** ** Texts made of digits *)

Fixpoint free_of (c : ascii) (s : string) : bool :=
  match s with
  | EmptyString => true
  | String x t => negb (Ascii.eqb x c) && free_of c t
  end.

Lemma free_of_append (c : ascii) (s t : string) :
  free_of c (s ++ t) = free_of c s && free_of c t.
Proof.
  induction s as [|x s IH]; [reflexivity|].
  cbn [append free_of]. rewrite IH. apply andb_assoc.
Qed.

Lemma lstrip_free (c : ascii) (s : string) :
  free_of c s = true -> Style.lstrip c s = s.
Proof.
  destruct s as [|x s]; [reflexivity|]. cbn [free_of Style.lstrip].
  destruct (Ascii.eqb x c); [discriminate|reflexivity].
Qed.

Lemma rstrip_free (c : ascii) (s : string) :
  free_of c s = true ->
  Style.rstrip c s = s /\ Style.rstrip c (s ++ String c EmptyString) = s.
Proof.
  induction s as [|x s IH]; intros H.
  - cbn. rewrite Ascii.eqb_refl. split; reflexivity.
  - cbn [free_of] in H. apply andb_true_iff in H. destruct H as [Hx Hs].
    destruct (IH Hs) as [E1 E2].
    cbn [append Style.rstrip]. rewrite E1, E2.
    destruct (Ascii.eqb x c); [discriminate|].
    destruct s; split; reflexivity.
Qed.

Lemma strip_suffix (c : ascii) (s : string) :
  free_of c s = true -> Style.strip c (s ++ String c EmptyString) = s.
Proof.
  intros H. unfold Style.strip. destruct s as [|x s].
  - cbn. rewrite Ascii.eqb_refl. reflexivity.
  - pose proof H as H'. cbn [free_of] in H'.
    apply andb_true_iff in H'. destruct H' as [Hx _].
    cbn [append Style.lstrip].
    destruct (Ascii.eqb x c); [discriminate|].
    apply (rstrip_free c (String x s) H).
Qed.

(** The characters a decimal numeral is written with. *)
Definition is_digit (x : ascii) : bool :=
  match uint_of_char x (Some Decimal.Nil) with Some _ => true | None => false end.

Fixpoint all_digits (s : string) : bool :=
  match s with
  | EmptyString => true
  | String x t => is_digit x && all_digits t
  end.

Lemma string_of_uint_digits (d : Decimal.uint) :
  all_digits (NilEmpty.string_of_uint d) = true.
Proof. induction d; cbn; auto. Qed.

Lemma digits_unfold (n : Z) :
  Py.digits n = NilEmpty.string_of_uint (N.to_uint (Z.to_N n)).
Proof.
  unfold Py.digits, NilZero.string_of_uint.
  destruct (N.to_uint (Z.to_N n)) eqn:E; try reflexivity.
  exfalso. destruct (Z.to_N n) as [|q]; [discriminate E|].
  exact (DecimalPos.Unsigned.to_uint_nonnil q E).
Qed.

Lemma digits_all_digits (n : Z) : all_digits (Py.digits n) = true.
Proof. rewrite digits_unfold. apply string_of_uint_digits. Qed.

Lemma digits_nonempty (n : Z) :
  exists x t, Py.digits n = String x t /\ is_digit x = true.
Proof.
  pose proof (digits_all_digits n) as H.
  destruct (Py.digits n) as [|x t] eqn:E.
  - exfalso. rewrite digits_unfold in E.
    destruct (N.to_uint (Z.to_N n)) eqn:E'; try discriminate E.
    destruct (Z.to_N n) as [|q]; [discriminate E'|].
    exact (DecimalPos.Unsigned.to_uint_nonnil q E').
  - exists x, t. split; [reflexivity|].
    cbn in H. apply andb_true_iff in H. apply H.
Qed.

Lemma digits_read_back (n : Z) :
  (0 <= n)%Z ->
  option_map (fun d => Z.of_N (N.of_uint d))
    (NilEmpty.uint_of_string (Py.digits n)) = Some n.
Proof.
  intros Hn. rewrite digits_unfold, NilEmpty.usu. cbn [option_map].
  rewrite DecimalN.Unsigned.of_to. rewrite Z2N.id by exact Hn. reflexivity.
Qed.

Lemma digit_not (c x : ascii) :
  is_digit c = false -> is_digit x = true -> Ascii.eqb x c = false.
Proof.
  intros Hc Hx. destruct (Ascii.eqb_spec x c) as [->|]; [|reflexivity].
  congruence.
Qed.

Lemma all_digits_free (c : ascii) (s : string) :
  is_digit c = false -> all_digits s = true -> free_of c s = true.
Proof.
  intros Hc. induction s as [|x s IH]; [reflexivity|].
  cbn [all_digits free_of]. intros H. apply andb_true_iff in H.
  destruct H as [Hx Hs]. rewrite (digit_not c x Hc Hx), (IH Hs). reflexivity.
Qed.

Lemma split_point_digits (s t : string) :
  all_digits s = true ->
  Style.split_point (s ++ String "."%char t) = (s, Some t).
Proof.
  induction s as [|x s IH]; intros H; [reflexivity|].
  cbn [all_digits] in H. apply andb_true_iff in H. destruct H as [Hx Hs].
  cbn [append Style.split_point].
  rewrite (digit_not "."%char x eq_refl Hx), (IH Hs). reflexivity.
Qed.

Lemma one_digit_length (b : Z) :
  (0 <= b <= 9)%Z -> String.length (Py.digits b) = 1%nat.
Proof.
  intros Hb.
  assert (H : (b = 0 \/ b = 1 \/ b = 2 \/ b = 3 \/ b = 4 \/ b = 5
               \/ b = 6 \/ b = 7 \/ b = 8 \/ b = 9)%Z) by lia.
  repeat (destruct H as [->|H]; [reflexivity|]). subst b. reflexivity.
Qed.

(** Reading back an unsigned numeral with one decimal. *)
Lemma float_unsigned (a b : Z) :
  (0 <= a)%Z -> (0 <= b <= 9)%Z ->
  Style.float (Py.digits a ++ "." ++ Py.digits b)
  = Style.Value (inject_Z a
                 + inject_Z b / inject_Z (10 ^ Z.of_nat 1)).
Proof.
  intros Ha Hb.
  destruct (digits_nonempty a) as (x & t & E & Hx).
  unfold Style.float.
  assert (Hhead :
    match (Py.digits a ++ "." ++ Py.digits b)%string with
    | String x t =>
        if Ascii.eqb x "-"%char then (true, t)
        else if Ascii.eqb x "+"%char then (false, t)
        else (false, (Py.digits a ++ "." ++ Py.digits b)%string)
    | EmptyString => (false, (Py.digits a ++ "." ++ Py.digits b)%string)
    end = (false, (Py.digits a ++ "." ++ Py.digits b)%string)).
  { rewrite E at 1. cbn [append].
    rewrite (digit_not "-"%char x eq_refl Hx).
    rewrite (digit_not "+"%char x eq_refl Hx). reflexivity. }
  rewrite Hhead.
  change ("." ++ Py.digits b)%string
    with (String "."%char (Py.digits b)).
  rewrite (split_point_digits _ _ (digits_all_digits a)).
  pose proof (digits_read_back a Ha) as Ra.
  pose proof (digits_read_back b ltac:(lia)) as Rb.
  destruct (NilEmpty.uint_of_string (Py.digits a)) as [da|];
    [|discriminate Ra].
  destruct (NilEmpty.uint_of_string (Py.digits b)) as [db|];
    [|discriminate Rb].
  cbn [option_map] in Ra, Rb. injection Ra as Ra. injection Rb as Rb.
  rewrite Ra, Rb, (one_digit_length b Hb), E. reflexivity.
Qed.

(** The same with a minus sign in front. *)
Lemma float_signed (a b : Z) :
  (0 <= a)%Z -> (0 <= b <= 9)%Z ->
  Style.float (String "-"%char (Py.digits a ++ "." ++ Py.digits b))
  = Style.Value (- (inject_Z a
                    + inject_Z b / inject_Z (10 ^ Z.of_nat 1))).
Proof.
  intros Ha Hb.
  destruct (digits_nonempty a) as (x & t & E & Hx).
  unfold Style.float. cbn [Ascii.eqb Bool.eqb].
  change ("." ++ Py.digits b)%string
    with (String "."%char (Py.digits b)).
  rewrite (split_point_digits _ _ (digits_all_digits a)).
  pose proof (digits_read_back a Ha) as Ra.
  pose proof (digits_read_back b ltac:(lia)) as Rb.
  destruct (NilEmpty.uint_of_string (Py.digits a)) as [da|];
    [|discriminate Ra].
  destruct (NilEmpty.uint_of_string (Py.digits b)) as [db|];
    [|discriminate Rb].
  cbn [option_map] in Ra, Rb. injection Ra as Ra. injection Rb as Rb.
  rewrite Ra, Rb, (one_digit_length b Hb), E. reflexivity.
Qed.

Lemma format_1f_free_of_percent (x : Q) :
  free_of "%"%char (Py.format_1f x) = true.
Proof.
  unfold Py.format_1f. rewrite !free_of_append.
  rewrite !(all_digits_free "%"%char _ eq_refl (digits_all_digits _)).
  destruct (Py.ltb x 0); reflexivity.
Qed.

(** Reading an ROI text back gives the percentage it was printed
    from, rounded to one decimal. *)
Lemma roi_text_reads_back (x : Q) :
  exists v,
    Style.float (Style.strip "%"%char (Py.format_1f x ++ "%"))
    = Style.Value v
    /\ v == inject_Z (Py.round (x * 10)) / 10.
Proof.
  rewrite (strip_suffix "%"%char _ (format_1f_free_of_percent x)).
  unfold Py.format_1f.
  set (n := Z.abs (Py.round (x * 10))).
  assert (Hn : (0 <= n)%Z) by apply Z.abs_nonneg.
  assert (Ha : (0 <= n / 10)%Z) by (apply Z.div_pos; lia).
  assert (Hb : (0 <= n mod 10 <= 9)%Z)
    by (pose proof (Z.mod_pos_bound n 10 ltac:(lia)); lia).
  assert (Hv : inject_Z (n / 10)
               + inject_Z (n mod 10) / inject_Z (10 ^ Z.of_nat 1)
               == inject_Z n / 10).
  { change (inject_Z (10 ^ Z.of_nat 1)) with 10.
    rewrite (Z.div_mod n 10) at 3 by lia.
    rewrite inject_Z_plus, inject_Z_mult. change (inject_Z 10) with 10.
    field. }
  destruct (Py.ltb x 0) eqn:Hx.
  - apply ltb_lt in Hx.
    change ("-" ++ Py.digits (n / 10) ++ "." ++ Py.digits (n mod 10))%string
      with (String "-"%char
              (Py.digits (n / 10) ++ "." ++ Py.digits (n mod 10))).
    rewrite (float_signed _ _ Ha Hb). eexists. split; [reflexivity|].
    rewrite Hv.
    assert (Hneg : (Py.round (x * 10) <= 0)%Z).
    { rewrite <- (round_inject_Z 0). apply round_monotone.
      change (inject_Z 0) with 0. lra. }
    unfold n. rewrite Z.abs_neq by exact Hneg.
    rewrite inject_Z_opp. field.
  - apply ltb_ge in Hx.
    change ("" ++ Py.digits (n / 10) ++ "." ++ Py.digits (n mod 10))%string
      with (Py.digits (n / 10) ++ "." ++ Py.digits (n mod 10))%string.
    rewrite (float_unsigned _ _ Ha Hb). eexists. split; [reflexivity|].
    rewrite Hv.
    assert (Hpos : (0 <= Py.round (x * 10))%Z) by (apply round_nonneg; lra).
    unfold n. rewrite Z.abs_eq by exact Hpos. reflexivity.
Qed.

(** X11.  The ROI chart reads every row's ROI text back as a number:
    for every month this succeeds, and the value is the month's
    [roi * 100] rounded to one decimal, so within 0.05 of it. *)
Theorem chart_roi_value (p : Inputs) (m : Z) (s s' : State) :
  month_step p m s s' ->
  exists row r v,
    data s' = data s ++ [row]
    /\ roi s' = Some r
    /\ Style.roi_vals (data s') = Style.roi_vals (data s) ++ [Style.Value v]
    /\ v == inject_Z (Py.round (r * 100 * 10)) / 10
    /\ - (1 # 20) <= v - r * 100 <= 1 # 20.
Proof.
  intros Hstep.
  apply month_step_inv in Hstep. destruct Hstep as (_ & _ & _ & ->).
  set (s' := step p m s).
  assert (Hr : exists r, roi s' = Some r) by (unfold s'; rewrite step_roi; eauto).
  destruct Hr as [r Hr].
  destruct (roi_text_reads_back (r * 100)) as (v & Hv & Ev).
  exists (row_of m s'), r, v.
  split; [apply step_appends|]. split; [exact Hr|]. split.
  - unfold Style.roi_vals. unfold s' at 1. rewrite step_appends.
    rewrite map_app. cbn [map]. fold s'. do 2 f_equal.
    cbn [row_of Cumulative_ROI]. rewrite Hr. cbn [bound]. exact Hv.
  - split; [exact Ev|].
    pose proof (round_error (r * 100 * 10)) as He.
    rewrite Ev. split; qlra.
Qed.

Lemma chart_roi_value_witness :
  exists row r v,
    data (scenario_after 12) = data (scenario_after 11) ++ [row]
    /\ roi (scenario_after 12) = Some r
    /\ Style.roi_vals (data (scenario_after 12))
       = Style.roi_vals (data (scenario_after 11)) ++ [Style.Value v]
    /\ v == inject_Z (Py.round (r * 100 * 10)) / 10
    /\ - (1 # 20) <= v - r * 100 <= 1 # 20.
Proof.
  apply (chart_roi_value scenario 12). exact scenario_month_12.
Defined.

(** X12.  The two cell colours of a month's row are always decided
    (reading the ROI text never fails), and a green cell never shows
    without an actual profit: if the Profit cell or the ROI cell is
    green, the unrounded profit of the month is positive.  (A small
    profit can still show red: both cells go by rounded values.) *)
Theorem green_means_profit (p : Inputs) (m : Z) (s s' : State) :
  month_step p m s s' ->
  exists row pr colour,
    data s' = data s ++ [row]
    /\ profit s' = Some pr
    /\ Style.highlight_roi (Cumulative_ROI row) = Some colour
    /\ (colour = "color: green;"%string \/ colour = "color: red;"%string)
    /\ (colour = "color: green;"%string -> 0 < pr)
    /\ (Style.highlight_profit (Profit row) = "color: green;"%string ->
        0 < pr).
Proof.
  intros Hstep.
  apply month_step_inv in Hstep. destruct Hstep as (_ & _ & _ & ->).
  set (s' := step p m s).
  pose proof (step_roi p m s) as Hroi. fold s' in Hroi.
  pose proof (step_profit p m s) as Hpr. fold s' in Hpr.
  set (a := cumulative_savings s') in *.
  set (b := cumulative_total_cost s') in *.
  set (r := if Py.ltb 0 b then (a - b) / b else - (1)) in *.
  destruct (roi_text_reads_back (r * 100)) as (v & Hv & Ev).
  assert (Htext : Cumulative_ROI (row_of m s')
                  = (Py.format_1f (r * 100) ++ "%")%string).
  { cbn [row_of Cumulative_ROI]. rewrite Hroi. reflexivity. }
  exists (row_of m s'), (a - b).
  exists (if Py.ltb 0 v then "color: green;"%string
          else "color: red;"%string).
  split; [apply step_appends|]. split; [exact Hpr|].
  split; [unfold Style.highlight_roi; rewrite Htext, Hv; reflexivity|].
  split; [destruct (Py.ltb 0 v); auto|]. split.
  - destruct (Py.ltb 0 v) eqn:Hpos; [intros _|discriminate].
    apply ltb_lt in Hpos. rewrite Ev in Hpos.
    assert (Hround : (0 < Py.round (r * 100 * 10))%Z).
    { rewrite Zlt_Qlt. change (inject_Z 0) with 0. qlra. }
    assert (Hr : 0 < r).
    { destruct (Qlt_le_dec 0 r) as [?|Hle]; [assumption|exfalso].
      assert (Hz : (Py.round (r * 100 * 10) <= 0)%Z).
      { rewrite <- (round_inject_Z 0). apply round_monotone.
        change (inject_Z 0) with 0. lra. }
      lia. }
    unfold r in Hr. destruct (Py.ltb 0 b) eqn:Hb.
    + apply ltb_lt in Hb.
      assert (Hq : (a - b) / b * b == a - b) by (field; lra).
      set (q := (a - b) / b) in *. nra.
    + exfalso. revert Hr. apply Qle_not_lt. discriminate.
  - unfold Style.highlight_profit. cbn [row_of Profit]. rewrite Hpr.
    cbn [bound].
    destruct (Z.ltb_spec 0 (Py.round (a - b))) as [Hpos|_]; [intros _|discriminate].
    destruct (Qlt_le_dec 0 (a - b)) as [?|Hle]; [assumption|exfalso].
    assert (Hz : (Py.round (a - b) <= 0)%Z).
    { rewrite <- (round_inject_Z 0). apply round_monotone.
      change (inject_Z 0) with 0. exact Hle. }
    lia.
Qed.

Lemma green_means_profit_witness :
  exists row pr colour,
    data (scenario_after 12) = data (scenario_after 11) ++ [row]
    /\ profit (scenario_after 12) = Some pr
    /\ Style.highlight_roi (Cumulative_ROI row) = Some colour
    /\ (colour = "color: green;"%string \/ colour = "color: red;"%string)
    /\ (colour = "color: green;"%string -> 0 < pr)
    /\ (Style.highlight_profit (Profit row) = "color: green;"%string ->
        0 < pr).
Proof.
  apply (green_means_profit scenario 12). exact scenario_month_12.
Defined.

(** * When a run fails *)


